(** * Quiz bot (app.py): a shallow embedding and its verification

    The program is a Flask webhook that serves multiple-choice questions
    from a MongoDB question bank over a messaging platform.  The embedding
    follows app.py function by function:

    - Python values decoded from the request body are [json] terms, and the
      dictionary accessors ([d.get(k)], [d[k]], iteration, truthiness,
      [.upper()], [.startswith()]) raise the exceptions Python raises;
    - [str.upper] follows Unicode case mapping and is a parameter of the
      model ([str_upper]): the theorems hold for every such function;
    - the two collections are lists of documents, [ObjectId] is the byte
      string bson wraps, with its constructor from [str] and its [str()];
    - handlers run in a state-and-exception monad [M] over a [world] that
      holds the collections, the store's availability, the draws of
      [$sample] and the log of outward effects (store writes and HTTP
      posts) in the order they happen. *)

From Stdlib Require Import String Ascii List ZArith Lia Bool Arith.
From Stdlib.Strings Require Import Byte.
Import ListNotations.
Open Scope string_scope.
Open Scope list_scope.
Open Scope nat_scope.

(** String concatenation, the [+] of Python strings and the glue of its
    f-strings. *)
Infix "+++" := String.append (right associativity, at level 60).

(** ** Python strings *)

Module PyStr.

(** Line feed, the "\n" of the f-strings. *)
Definition nl : string := String (ascii_of_nat 10) EmptyString.

(** Upper-casing of one ASCII character; other bytes are left as they
    are. *)
Definition upper_ascii (c : ascii) : ascii :=
  let n := nat_of_ascii c in
  if (97 <=? n) && (n <=? 122) then ascii_of_nat (n - 32) else c.

(** Upper-casing of the ASCII letters of a string: what [s.upper()] gives
    on ASCII text.  The handlers do not use it; it stands for [str.upper]
    in the examples, whose texts are ASCII. *)
Fixpoint upper (s : string) : string :=
  match s with
  | EmptyString => EmptyString
  | String c s' => String (upper_ascii c) (upper s')
  end.

(** [s.startswith(p)]. *)
Definition startswith (s p : string) : bool := String.prefix p s.

(** [needle in hay] on strings: substring test. *)
Fixpoint str_in (needle hay : string) : bool :=
  String.prefix needle hay ||
  match hay with
  | EmptyString => false
  | String _ hay' => str_in needle hay'
  end.

(** [s.split(sep)] for a one-character separator: never empty, and the
    parts joined by [sep] give [s] back. *)
Fixpoint split (sep : ascii) (s : string) : list string :=
  match s with
  | EmptyString => [EmptyString]
  | String c s' =>
      if Ascii.eqb c sep then EmptyString :: split sep s'
      else match split sep s' with
           | p :: ps => String c p :: ps
           | [] => [String c EmptyString]
           end
  end.

(** Membership of a character in a string. *)
Fixpoint has_char (c : ascii) (s : string) : bool :=
  match s with
  | EmptyString => false
  | String d s' => Ascii.eqb d c || has_char c s'
  end.

Definition underscore : ascii := "_"%char.

End PyStr.

(** ** bson.ObjectId *)

Module Oid.

(** An ObjectId wraps a [bytes] value; the ones a store assigns have twelve
    bytes. *)
Definition ObjectId := list byte.

Definition hexdigit (n : N) : ascii :=
  match n with
  | 0%N => "0" | 1%N => "1" | 2%N => "2" | 3%N => "3"
  | 4%N => "4" | 5%N => "5" | 6%N => "6" | 7%N => "7"
  | 8%N => "8" | 9%N => "9" | 10%N => "a" | 11%N => "b"
  | 12%N => "c" | 13%N => "d" | 14%N => "e" | _ => "f"
  end%char.

(** Value of a hexadecimal digit, either case, as [bytes.fromhex] reads it. *)
Definition hexval (c : ascii) : option N :=
  let n := N_of_ascii c in
  if ((48 <=? n) && (n <=? 57))%N then Some (n - 48)%N
  else if ((97 <=? n) && (n <=? 102))%N then Some (n - 87)%N
  else if ((65 <=? n) && (n <=? 70))%N then Some (n - 55)%N
  else None.

(** ASCII whitespace, which [bytes.fromhex] skips between bytes. *)
Definition is_space (c : ascii) : bool :=
  let n := N_of_ascii c in
  ((n =? 32) || ((9 <=? n) && (n <=? 13)))%N.

Definition byte_of_nibbles (h l : N) : byte :=
  match Byte.of_N (16 * h + l) with
  | Some b => b
  | None => x00
  end.

(** [bytes.fromhex(s)]: pairs of adjacent hexadecimal digits, whitespace
    allowed before each pair and at the end; [None] is its ValueError. *)
Fixpoint fromhex (s : string) : option (list byte) :=
  match s with
  | EmptyString => Some []
  | String c s' =>
      if is_space c then fromhex s'
      else
        match hexval c, s' with
        | Some h, String d s'' =>
            match hexval d, fromhex s'' with
            | Some l, Some bs => Some (byte_of_nibbles h l :: bs)
            | _, _ => None
            end
        | _, _ => None
        end
  end.

(** [ObjectId(s)] for a [str]: twenty-four characters that [bytes.fromhex]
    accepts; [None] is bson's InvalidId. *)
Definition of_str (s : string) : option ObjectId :=
  if String.length s =? 24 then fromhex s else None.

(** [str(oid)]: the lower-case hexadecimal form of the bytes. *)
Fixpoint to_str (o : ObjectId) : string :=
  match o with
  | [] => EmptyString
  | b :: o' =>
      let n := Byte.to_N b in
      String (hexdigit (n / 16)) (String (hexdigit (n mod 16)) (to_str o'))
  end.

Definition eqb (a b : ObjectId) : bool :=
  if list_eq_dec Byte.byte_eq_dec a b then true else false.

(** A store-assigned id: twelve bytes. *)
Definition assigned (o : ObjectId) : Prop := List.length o = 12.

End Oid.

(** ** Values decoded from the request body *)

(** What [request.get_json()] yields: [None], [bool], numbers (kept as
    integers; the handlers only test them for zero), [str], [list] and
    [dict] values.  A [dict] is its list of items, keys distinct. *)
Unset Elimination Schemes.
Inductive json : Type :=
| JNull
| JBool (b : bool)
| JNum (z : Z)
| JStr (s : string)
| JArr (l : list json)
| JObj (items : list (string * json)).
Set Elimination Schemes.

(** Structural equality, the test Mongo applies to a scalar [_id]. *)
Fixpoint json_eqb (a b : json) {struct a} : bool :=
  match a, b with
  | JNull, JNull => true
  | JBool x, JBool y => Bool.eqb x y
  | JNum x, JNum y => Z.eqb x y
  | JStr x, JStr y => String.eqb x y
  | JArr x, JArr y =>
      (fix go (x y : list json) {struct x} : bool :=
         match x, y with
         | [], [] => true
         | a' :: x', b' :: y' => json_eqb a' b' && go x' y'
         | _, _ => false
         end) x y
  | JObj x, JObj y =>
      (fix go (x y : list (string * json)) {struct x} : bool :=
         match x, y with
         | [], [] => true
         | (k, a') :: x', (k', b') :: y' =>
             String.eqb k k' && json_eqb a' b' && go x' y'
         | _, _ => false
         end) x y
  | _, _ => false
  end.

(** Python truthiness, as [if v:] and [v and w] test it. *)
Definition truthy (v : json) : bool :=
  match v with
  | JNull => false
  | JBool b => b
  | JNum z => negb (Z.eqb z 0)
  | JStr s => negb (String.eqb s "")
  | JArr l => match l with [] => false | _ => true end
  | JObj l => match l with [] => false | _ => true end
  end.

(** Lookup of a key among the items of a [dict]. *)
Fixpoint lookup (k : string) (items : list (string * json)) : option json :=
  match items with
  | [] => None
  | (k', v) :: items' => if String.eqb k' k then Some v else lookup k items'
  end.

(** ** Documents of the two collections *)

(** The four options of a question, keyed a to d. *)
Record options := {
  opt_a : string;
  opt_b : string;
  opt_c : string;
  opt_d : string
}.

(** A document of [db.questions]. *)
Record question := {
  q_id : Oid.ObjectId;
  q_exam_name : string;
  q_question_text : string;
  q_options : options;
  q_correct_option : string;
  q_explanation : option string
}.

(** A document of [db.users]: the sender id and, when the field exists, the
    ids of the questions seen, stored as strings. *)
Record user_doc := {
  u_id : json;
  u_seen_question_ids : option (list string)
}.

(** ** Outbound messages *)

Record button := {
  b_type : string;
  b_title : string;
  b_payload : string
}.

(** The message dictionary handed to [send_message]: a text and, when the
    key is present, the quick replies. *)
Record message := {
  m_text : string;
  m_quick_replies : option (list button)
}.

(** The body [send_message] posts to the messaging endpoint. *)
Record api_payload := {
  recipient_id : json;
  messaging_type : string;
  message_payload : message
}.

(** Outward effects, logged in the order they happen. *)
Inductive effect : Type :=
| Push (user : json) (seen : string)   (* update_one ... $push ... upsert *)
| Post (p : api_payload).              (* requests.post(API_URL, json=p) *)

(** ** The world the handlers run in *)

Record world := {
  questions : list question;     (* db.questions *)
  users : list user_doc;         (* db.users *)
  store_budget : option nat;     (* store operations that still succeed
                                    before the store is unreachable;
                                    None: it stays reachable *)
  rand : list nat;               (* the coming draws of $sample *)
  log : list effect              (* oldest first *)
}.

Definition set_users (us : list user_doc) (w : world) : world :=
  {| questions := questions w; users := us; store_budget := store_budget w;
     rand := rand w; log := log w |}.

Definition set_budget (b : option nat) (w : world) : world :=
  {| questions := questions w; users := users w; store_budget := b;
     rand := rand w; log := log w |}.

Definition set_rand (r : list nat) (w : world) : world :=
  {| questions := questions w; users := users w;
     store_budget := store_budget w; rand := r; log := log w |}.

Definition add_log (e : effect) (w : world) : world :=
  {| questions := questions w; users := users w;
     store_budget := store_budget w; rand := rand w; log := log w ++ [e] |}.

(** ** A small question bank, for the examples *)

Module Sample.

Definition id1 : Oid.ObjectId :=
  [x50; x7f; x1f; x77; xbc; xf8; x6c; xd7; x99; x43; x90; x11].

Definition id2 : Oid.ObjectId :=
  [x50; x7f; x1f; x77; xbc; xf8; x6c; xd7; x99; x43; x90; x12].

Definition id3 : Oid.ObjectId :=
  [x50; x7f; x1f; x77; xbc; xf8; x6c; xd7; x99; x43; x90; x13].

Definition q1 : question :=
  {| q_id := id1; q_exam_name := "NEET";
     q_question_text := "Which organelle is the site of photosynthesis?";
     q_options := {| opt_a := "Mitochondrion"; opt_b := "Chloroplast";
                     opt_c := "Ribosome"; opt_d := "Nucleus" |};
     q_correct_option := "b";
     q_explanation := Some "Chloroplasts hold the chlorophyll." |}.

Definition q2 : question :=
  {| q_id := id2; q_exam_name := "JEE";
     q_question_text := "What is the derivative of x^2?";
     q_options := {| opt_a := "2x"; opt_b := "x"; opt_c := "x^2";
                     opt_d := "2" |};
     q_correct_option := "a";
     q_explanation := None |}.

Definition q3 : question :=
  {| q_id := id3; q_exam_name := "NEET";
     q_question_text := "How many chambers has the human heart?";
     q_options := {| opt_a := "2"; opt_b := "3"; opt_c := "4";
                     opt_d := "5" |};
     q_correct_option := "c";
     q_explanation := None |}.

Definition alice : json := JStr "17841400000000001".

(** A fresh deployment: three questions, no user yet, the store reachable. *)
Definition w0 : world :=
  {| questions := [q1; q2; q3]; users := []; store_budget := None;
     rand := [1; 0]; log := [] |}.

(** The same with the store unreachable. *)
Definition w_down : world :=
  {| questions := [q1; q2; q3]; users := []; store_budget := Some 0;
     rand := []; log := [] |}.

(** The store answers two operations (the selection), then fails. *)
Definition w_failing_mark : world :=
  {| questions := [q1; q2; q3]; users := []; store_budget := Some 2;
     rand := []; log := [] |}.

End Sample.

(** ** Exceptions and the handler monad *)

Inductive exn : Type :=
| KeyError (k : string)
| TypeError
| AttributeError
| IndexError
| InvalidId (s : string)       (* bson.errors.InvalidId *)
| StoreError                   (* pymongo.errors.PyMongoError *)
| HTTPException (status : nat). (* werkzeug abort raised by get_json *)

Inductive result (A : Type) : Type :=
| Ok (a : A)
| Raise (e : exn).
Arguments Ok {A} a.
Arguments Raise {A} e.

Definition M (A : Type) : Type := world -> result A * world.

Definition ret {A} (a : A) : M A := fun w => (Ok a, w).

Definition raise {A} (e : exn) : M A := fun w => (Raise e, w).

Definition bind {A B} (c : M A) (k : A -> M B) : M B :=
  fun w =>
    match c w with
    | (Ok a, w') => k a w'
    | (Raise e, w') => (Raise e, w')
    end.

Declare Scope py_scope.
Delimit Scope py_scope with py.
Notation "x <- c ;; k" := (bind c (fun x => k))
  (at level 100, c at next level, right associativity) : py_scope.
Notation "c ;;; k" := (bind c (fun _ => k))
  (at level 100, right associativity) : py_scope.
Open Scope py_scope.

(** A [for] loop over a list already in hand: the first exception ends it. *)
Fixpoint for_each {A} (body : A -> M unit) (l : list A) : M unit :=
  match l with
  | [] => ret tt
  | x :: l' => body x ;;; for_each body l'
  end.

(** ** The string library *)

Section Model.

(** Python's [str.upper], which the program applies to the text of a
    message and to the stored letter it displays.  It belongs to the string
    library and follows Unicode case mapping; the embedding takes it as a
    parameter, so that what is proved holds for whatever [str.upper]
    does.  On ASCII text it is [PyStr.upper], and the examples run it
    there. *)
Variable str_upper : string -> string.

(** ** Python accessors on decoded values *)

(** [v.get(k, default)]: only a [dict] has [get]. *)
Definition py_get (v : json) (k : string) (default : json) : M json :=
  match v with
  | JObj items =>
      ret (match lookup k items with Some x => x | None => default end)
  | _ => raise AttributeError
  end.

(** [v[k]] for a string key [k]. *)
Definition py_getitem (v : json) (k : string) : M json :=
  match v with
  | JObj items =>
      match lookup k items with
      | Some x => ret x
      | None => raise (KeyError k)
      end
  | _ => raise TypeError
  end.

(** The values [for x in v] goes through: the elements of a list, the
    characters of a string, the keys of a dict. *)
Definition py_iter (v : json) : M (list json) :=
  match v with
  | JArr l => ret l
  | JStr s =>
      ret (map (fun c => JStr (String c EmptyString)) (list_ascii_of_string s))
  | JObj items => ret (map (fun kv => JStr (fst kv)) items)
  | _ => raise TypeError
  end.

(** [v.upper()]: a method of [str] alone. *)
Definition py_upper (v : json) : M string :=
  match v with
  | JStr s => ret (str_upper s)
  | _ => raise AttributeError
  end.

(** [parts[i]] on a list of strings. *)
Definition py_index (parts : list string) (i : nat) : M string :=
  match nth_error parts i with
  | Some p => ret p
  | None => raise IndexError
  end.

(** [v == s] for a string literal [s]. *)
Definition py_eq_str (v : json) (s : string) : bool :=
  match v with
  | JStr t => String.eqb t s
  | _ => false
  end.

(** ** The store *)

(** Every store operation first reaches the store: once the budget is spent
    the operation raises and the store stays unreachable. *)
Definition store_op : M unit :=
  fun w =>
    match store_budget w with
    | None => (Ok tt, w)
    | Some 0 => (Raise StoreError, w)
    | Some (S n) => (Ok tt, set_budget (Some n) w)
    end.

(** [db.users.find_one({"_id": user_id})] for a scalar id, as the
    platform's sender ids (strings) are: the first document whose [_id]
    equals it.  (For a dict id MongoDB reads operator keys as a query; the
    definition does not follow that, and statements about whose document
    is read or written are made for string ids.) *)
Definition db_users_find_one (user_id : json) : M (option user_doc) :=
  store_op ;;;
  fun w => (Ok (find (fun d => json_eqb (u_id d) user_id) (users w)), w).

(** Stage 1 of the pipeline: the exam matches and the id is none of
    [seen_object_ids]. *)
Definition matches (exam_name : string) (seen_object_ids : list Oid.ObjectId)
    (q : question) : bool :=
  String.eqb (q_exam_name q) exam_name &&
  negb (existsb (Oid.eqb (q_id q)) seen_object_ids).

(** Stage 2, [$sample] of size 1: one of the documents, chosen by the draw. *)
Definition sample1 (draw : nat) (docs : list question) : list question :=
  match nth_error docs (draw mod List.length docs) with
  | Some q => [q]
  | None => []
  end.

Definition next_draw : M nat :=
  fun w =>
    match rand w with
    | [] => (Ok 0, w)
    | r :: rs => (Ok r, set_rand rs w)
    end.

(** [list(db.questions.aggregate(pipeline))] for the pipeline of
    [fetch_unseen_question]. *)
Definition db_questions_aggregate (exam_name : string)
    (seen_object_ids : list Oid.ObjectId) : M (list question) :=
  store_op ;;;
  draw <- next_draw ;;
  fun w =>
    (Ok (sample1 draw (filter (matches exam_name seen_object_ids) (questions w))),
     w).

(** The [$push] of [update_one] with [upsert=True] on the documents, for
    a scalar id as above: the first document of that id gets the string
    appended (the field is created when missing); when there is none, the
    document is inserted. *)
Fixpoint push_seen (user_id : json) (s : string) (us : list user_doc)
    : list user_doc :=
  match us with
  | [] => [ {| u_id := user_id; u_seen_question_ids := Some [s] |} ]
  | d :: us' =>
      if json_eqb (u_id d) user_id then
        {| u_id := u_id d;
           u_seen_question_ids :=
             Some (match u_seen_question_ids d with
                   | Some l => l ++ [s]
                   | None => [s]
                   end) |} :: us'
      else d :: push_seen user_id s us'
  end.

(** [db.users.update_one({'_id': user_id},
    {'$push': {'seen_question_ids': s}}, upsert=True)]. *)
Definition db_users_update_one_push (user_id : json) (s : string) : M unit :=
  store_op ;;;
  fun w => (Ok tt, add_log (Push user_id s) (set_users (push_seen user_id s (users w)) w)).

(** [db.questions.find_one({"_id": oid})]. *)
Definition db_questions_find_one (oid : Oid.ObjectId) : M (option question) :=
  store_op ;;;
  fun w => (Ok (find (fun q => Oid.eqb (q_id q) oid) (questions w)), w).

(** [ObjectId(id_str)], raising InvalidId. *)
Definition ObjectId (id_str : string) : M Oid.ObjectId :=
  match Oid.of_str id_str with
  | Some o => ret o
  | None => raise (InvalidId id_str)
  end.

(** The comprehension [[ObjectId(id_str) for id_str in seen_ids]]. *)
Fixpoint object_ids (seen_ids : list string) : M (list Oid.ObjectId) :=
  match seen_ids with
  | [] => ret []
  | id_str :: rest =>
      o <- ObjectId id_str ;;
      os <- object_ids rest ;;
      ret (o :: os)
  end.

(** ** Helper functions of app.py *)

(** [send_message]: the post is attempted; a failure of the request is
    caught there and printed, so nothing is raised. *)
Definition send_message (recipient : json) (message_payload : message)
    : M unit :=
  fun w =>
    (Ok tt,
     add_log (Post {| recipient_id := recipient;
                      messaging_type := "RESPONSE";
                      message_payload := message_payload |}) w).

Definition fetch_unseen_question (user_id : json) (exam_name : string)
    : M (option question) :=
  user_doc <- db_users_find_one user_id ;;
  let seen_ids :=
    match user_doc with
    | Some d =>
        match u_seen_question_ids d with
        | Some l => l
        | None => []
        end
    | None => []
    end in
  seen_object_ids <- object_ids seen_ids ;;
  result <- db_questions_aggregate exam_name seen_object_ids ;;
  ret (match result with
       | q :: _ => Some q
       | [] => None
       end).

Definition mark_question_as_seen (user_id : json) (question_id : Oid.ObjectId)
    : M unit :=
  db_users_update_one_push user_id (Oid.to_str question_id).

Definition get_question_by_id (question_id : string) : M (option question) :=
  oid <- ObjectId question_id ;;
  db_questions_find_one oid.

(** ** Handlers *)

(** The four quick replies of a question, payloads ["ANSWER_<id>_<letter>"]. *)
Definition answer_button (title : string) (q_id_str letter : string) : button :=
  {| b_type := "postback"; b_title := title;
     b_payload := "ANSWER_" +++ q_id_str +++ "_" +++ letter |}.

Definition completion_text (exam_name : string) : string :=
  "🎉 Congratulations! You've completed all available questions for "
  +++ exam_name +++ ".".

Definition handle_new_question_request (sender_id : json) (exam_name : string)
    : M unit :=
  question_doc <- fetch_unseen_question sender_id exam_name ;;
  match question_doc with
  | Some doc =>
      let q_id := q_id doc in
      let q_text := q_question_text doc in
      let opts := q_options doc in
      (* Immediately mark the question as seen to prevent repeats *)
      mark_question_as_seen sender_id q_id ;;;
      let buttons :=
        [ answer_button "A" (Oid.to_str q_id) "a";
          answer_button "B" (Oid.to_str q_id) "b";
          answer_button "C" (Oid.to_str q_id) "c";
          answer_button "D" (Oid.to_str q_id) "d" ] in
      let question_to_send :=
        q_text +++ PyStr.nl +++ PyStr.nl
        +++ "A) " +++ opt_a opts +++ PyStr.nl
        +++ "B) " +++ opt_b opts +++ PyStr.nl
        +++ "C) " +++ opt_c opts +++ PyStr.nl
        +++ "D) " +++ opt_d opts in
      send_message sender_id
        {| m_text := question_to_send; m_quick_replies := Some buttons |}
  | None =>
      (* User has finished all questions for this exam *)
      send_message sender_id
        {| m_text := completion_text exam_name; m_quick_replies := None |}
  end.

Definition next_button (next_exam : string) : button :=
  {| b_type := "postback"; b_title := "Next Question";
     b_payload := "NEXT_" +++ next_exam |}.

(** The reply text of the grader for a stored question and a submitted
    letter. *)
Definition reply_text (doc : question) (user_answer : string) : string :=
  let correct_answer := q_correct_option doc in
  let explanation :=
    match q_explanation doc with
    | Some e => e
    | None => "No explanation available."
    end in
  if String.eqb user_answer correct_answer then
    "✅ Correct!" +++ PyStr.nl +++ PyStr.nl +++ explanation
  else
    "❌ Incorrect. The correct answer was (" +++ str_upper correct_answer
    +++ ")." +++ PyStr.nl +++ PyStr.nl +++ explanation.

Definition handle_postback (sender_id : json) (payload : json) : M unit :=
  match payload with
  | JStr payload =>
      if PyStr.startswith payload "ANSWER_" then
        let parts := PyStr.split PyStr.underscore payload in
        question_id <- py_index parts 1 ;;
        user_answer <- py_index parts 2 ;;
        question_doc <- get_question_by_id question_id ;;
        match question_doc with
        | Some doc =>
            let next_exam := q_exam_name doc in
            send_message sender_id
              {| m_text := reply_text doc user_answer;
                 m_quick_replies := Some [next_button next_exam] |}
        | None => ret tt
        end
      else if PyStr.startswith payload "NEXT_" then
        exam_name <- py_index (PyStr.split PyStr.underscore payload) 1 ;;
        handle_new_question_request sender_id exam_name
      else ret tt
  | _ => raise AttributeError   (* no startswith on other values *)
  end.

(** ** The webhook *)

Inductive http_method : Type := GET | POST | HEAD.

(** What [request.get_json()] does with the body: it returns the decoded
    value ([Json]; [None] for the body null), or it returns [None] for a
    body without JSON content type (Flask before 2.1), or it raises an HTTP
    error (400 for malformed JSON; 415 for a body without JSON content
    type from Flask 2.1 on). *)
Inductive body : Type :=
| Json (data : json)
| NoJson
| BadJson (status : nat).

Record request := {
  method : http_method;
  args : list (string * string);   (* the query string *)
  req_body : body
}.

(** [request.args.get(k)]. *)
Fixpoint args_get (k : string) (a : list (string * string)) : option string :=
  match a with
  | [] => None
  | (k', v) :: a' => if String.eqb k' k then Some v else args_get k a'
  end.

Definition get_json (r : request) : M json :=
  match req_body r with
  | Json data => ret data
  | NoJson => ret JNull
  | BadJson status => raise (HTTPException status)
  end.

(** What the view function returns: a body ([None] when the challenge is
    missing) or a body with a status. *)
Inductive retval : Type :=
| Body (b : option string)
| BodyStatus (b : string) (status : nat).

(** [a == b] on two optional strings ([None] when a key is absent). *)
Definition opt_str_eqb (a b : option string) : bool :=
  match a, b with
  | Some x, Some y => String.eqb x y
  | None, None => true
  | _, _ => false
  end.

Definition unknown_command_text : string :=
  "Hello! Type 'NEET' or 'JEE' to start a quiz.".

(** Lines 105 to 111: the exam a text message asks for. *)
Definition exam_of_text (message_text : string) : option string :=
  if PyStr.str_in "NEET" message_text || PyStr.str_in "NEXT" message_text
  then Some "NEET"
  else if PyStr.str_in "JEE" message_text then Some "JEE"
  else None.

(** The body of the inner loop of [webhook], for one messaging event. *)
Definition handle_event (event : json) : M unit :=
  sender <- py_getitem event "sender" ;;
  sender_id <- py_getitem sender "id" ;;
  (* event.get('message') and event['message'].get('text') *)
  message <- py_get event "message" JNull ;;
  text <- (if truthy message then
             m <- py_getitem event "message" ;; py_get m "text" JNull
           else ret message) ;;
  if truthy text then
    m <- py_getitem event "message" ;;
    t <- py_getitem m "text" ;;
    message_text <- py_upper t ;;
    match exam_of_text message_text with
    | Some exam_name => handle_new_question_request sender_id exam_name
    | None =>
        send_message sender_id
          {| m_text := unknown_command_text; m_quick_replies := None |}
    end
  else
    postback <- py_get event "postback" JNull ;;
    if truthy postback then
      p <- py_getitem event "postback" ;;
      payload <- py_getitem p "payload" ;;
      handle_postback sender_id payload
    else ret tt.

Section Webhook.

(** The configured secret, [os.environ.get('META_VERIFY_TOKEN')]. *)
Variable META_VERIFY_TOKEN : option string.

Definition webhook (r : request) : M retval :=
  match method r with
  | GET =>
      if opt_str_eqb (args_get "hub.verify_token" (args r)) META_VERIFY_TOKEN
      then ret (Body (args_get "hub.challenge" (args r)))
      else ret (BodyStatus "Verification token mismatch" 403)
  | POST =>
      data <- get_json r ;;
      object <- py_get data "object" JNull ;;
      (if py_eq_str object "instagram" then
         entries <- py_get data "entry" (JArr []) ;;
         entries <- py_iter entries ;;
         for_each
           (fun entry =>
              events <- py_get entry "messaging" (JArr []) ;;
              events <- py_iter events ;;
              for_each handle_event events)
           entries
       else ret tt) ;;;
      ret (BodyStatus "OK" 200)
  | HEAD => ret (BodyStatus "OK" 200)
  end.

End Webhook.

(** ** Observations on a world *)

(** The seen ids [fetch_unseen_question] reads for a user: those of the
    user's document, none when the document or the field is missing. *)
Definition seen_ids_of (us : list user_doc) (user_id : json) : list string :=
  match find (fun d => json_eqb (u_id d) user_id) us with
  | Some d =>
      match u_seen_question_ids d with
      | Some l => l
      | None => []
      end
  | None => []
  end.

(** The question id a message serves, as the client decodes it from the
    first answer button; [None] for a message that serves no question. *)
Definition served_id (m : message) : option string :=
  match m_quick_replies m with
  | Some (b :: _) =>
      if PyStr.startswith (b_payload b) "ANSWER_"
      then nth_error (PyStr.split PyStr.underscore (b_payload b)) 1
      else None
  | _ => None
  end.

(** The question ids served to a user along a log, oldest first. *)
Fixpoint served_to (user : json) (l : list effect) : list string :=
  match l with
  | [] => []
  | Post p :: l' =>
      if json_eqb (recipient_id p) user then
        match served_id (message_payload p) with
        | Some s => s :: served_to user l'
        | None => served_to user l'
        end
      else served_to user l'
  | Push _ _ :: l' => served_to user l'
  end.

(** The messages posted along a log. *)
Fixpoint posts (l : list effect) : list api_payload :=
  match l with
  | [] => []
  | Post p :: l' => p :: posts l'
  | Push _ _ :: l' => posts l'
  end.

(** One serve-next-question request: a call of
    [handle_new_question_request] for a sender and an exam. *)
Definition serve (rq : json * string) (w : world) : world :=
  snd (handle_new_question_request (fst rq) (snd rq) w).

Section Runs.

Variable META_VERIFY_TOKEN : option string.

(** A run of the webhook over a sequence of requests; an exception ends
    the request it was raised in, not the run. *)
Definition run_requests (reqs : list request) (w : world) : world :=
  fold_left (fun w r => snd (webhook META_VERIFY_TOKEN r w)) reqs w.

End Runs.

(** Every question of the store has a store-assigned id. *)
Definition store_assigned (w : world) : Prop :=
  Forall (fun q => Oid.assigned (q_id q)) (questions w).

(** Two worlds with the same documents and the same log: they differ at
    most in the store's budget and in the draws left. *)
Definition same_data (w w' : world) : Prop :=
  questions w' = questions w /\ users w' = users w /\ log w' = log w.

(** The reply [send_message] posts. *)
Definition post_of (recipient : json) (m : message) : effect :=
  Post {| recipient_id := recipient; messaging_type := "RESPONSE";
          message_payload := m |}.

(** The message that serves a question. *)
Definition question_message (doc : question) : message :=
  {| m_text :=
       q_question_text doc +++ PyStr.nl +++ PyStr.nl
       +++ "A) " +++ opt_a (q_options doc) +++ PyStr.nl
       +++ "B) " +++ opt_b (q_options doc) +++ PyStr.nl
       +++ "C) " +++ opt_c (q_options doc) +++ PyStr.nl
       +++ "D) " +++ opt_d (q_options doc);
     m_quick_replies :=
       Some [ answer_button "A" (Oid.to_str (q_id doc)) "a";
              answer_button "B" (Oid.to_str (q_id doc)) "b";
              answer_button "C" (Oid.to_str (q_id doc)) "c";
              answer_button "D" (Oid.to_str (q_id doc)) "d" ] |}.

(** The grader's reply to a submitted letter for a stored question. *)
Definition grade_message (doc : question) (user_answer : string) : message :=
  {| m_text := reply_text doc user_answer;
     m_quick_replies := Some [next_button (q_exam_name doc)] |}.

(** The parts of a postback payload, as the grader splits it. *)
Definition parts_of (payload : string) : list string :=
  PyStr.split PyStr.underscore payload.

(** The verdict a reply shows: whether it opens with the Correct mark. *)
Definition says_correct (m : message) : bool :=
  PyStr.startswith (m_text m) "✅ Correct!".

(** The option letters of the answer buttons. *)
Definition letters : list string := ["a"; "b"; "c"; "d"].

(** The message sent when an exam is exhausted. *)
Definition completion_message (exam_name : string) : message :=
  {| m_text := completion_text exam_name; m_quick_replies := None |}.

(** The invariant of a run: what was served to a user is in the user's seen
    list, and was served once. *)
Definition served_once (w : world) : Prop :=
  forall u, NoDup (served_to u (log w)) /\
            incl (served_to u (log w)) (seen_ids_of (users w) u).

(** Nothing is left of an exam for a user: every seen string of the user is
    an ObjectId, and every question of the exam is among them. *)
Definition exhausted (w : world) (u : json) (e : string) : Prop :=
  (forall s, In s (seen_ids_of (users w) u) -> Oid.of_str s <> None) /\
  (forall q, In q (questions w) -> q_exam_name q = e ->
     exists s, In s (seen_ids_of (users w) u) /\
               Oid.of_str s = Some (q_id q)).

(** How the world may change while requests are handled: the questions
    stay, seen lists only grow, and only by id strings of stored questions,
    a reachable store stays reachable, and the invariant of a run is kept. *)
Definition evolves (w w' : world) : Prop :=
  questions w' = questions w /\
  (forall v, incl (seen_ids_of (users w) v) (seen_ids_of (users w') v)) /\
  (forall v s, In s (seen_ids_of (users w') v) ->
     In s (seen_ids_of (users w) v) \/
     exists q, In q (questions w) /\ s = Oid.to_str (q_id q)) /\
  (store_budget w = None -> store_budget w' = None) /\
  (served_once w -> served_once w').

(** A computation under which the world evolves, whether it returns or
    raises. *)
Definition keeps {A} (c : M A) : Prop :=
  forall w, evolves w (snd (c w)).

(** ** Deliveries of the platform *)

Definition text_event (sender : json) (text : string) : json :=
  JObj [("sender", JObj [("id", sender)]);
        ("message", JObj [("text", JStr text)])].

Definition postback_event (sender : json) (payload : string) : json :=
  JObj [("sender", JObj [("id", sender)]);
        ("postback", JObj [("payload", JStr payload)])].

(** The POST the platform delivers for a list of messaging events. *)
Definition delivery (events : list json) : request :=
  {| method := POST; args := [];
     req_body :=
       Json (JObj [("object", JStr "instagram");
                   ("entry", JArr [JObj [("messaging", JArr events)]])]) |}.

(** ** Bodies the webhook ignores *)





(** ** The effects of one event *)

(** The help reply to a text without keyword. *)
Definition unknown_command_message : message :=
  {| m_text := unknown_command_text; m_quick_replies := None |}.

(** What handling one event of sender [u] can do to the documents and the
    log: nothing, or one of the four replies, the question reply coming
    with the push of its id onto the sender's seen list. *)
Inductive outcome (u : json) (w w' : world) : Prop :=
| Quiet :
    users w' = users w -> log w' = log w -> outcome u w w'
| Completed (e : string) :
    users w' = users w ->
    log w' = log w ++ [post_of u (completion_message e)] ->
    outcome u w w'
| Served (q : question) :
    In q (questions w) ->
    ~ In (Oid.to_str (q_id q)) (seen_ids_of (users w) u) ->
    users w' = push_seen u (Oid.to_str (q_id q)) (users w) ->
    log w' = log w ++ [Push u (Oid.to_str (q_id q));
                       post_of u (question_message q)] ->
    outcome u w w'
| Graded (q : question) (user_answer : string) :
    In q (questions w) ->
    users w' = users w ->
    log w' = log w ++ [post_of u (grade_message q user_answer)] ->
    outcome u w w'
| Helped :
    users w' = users w ->
    log w' = log w ++ [post_of u unknown_command_message] ->
    outcome u w w'.

(** One event's worth of change, the questions kept. *)
Definition affects (u : json) (w w' : world) : Prop :=
  questions w' = questions w /\ outcome u w w'.

(** Worlds reached through any number of such changes. *)
Inductive reaches (w : world) : world -> Prop :=
| reaches_here : reaches w w
| reaches_step (u : json) (w1 w2 : world) :
    reaches w w1 -> affects u w1 w2 -> reaches w w2.

(** A computation that leaves the world as it is. *)
Definition pure {A} (c : M A) : Prop := forall w, snd (c w) = w.

(** The sender id [handle_event] reads, [event['sender']['id']], when the
    two subscripts succeed. *)
Definition sender_of (event : json) : option json :=
  match event with
  | JObj items =>
      match lookup "sender" items with
      | Some (JObj sender) => lookup "id" sender
      | _ => None
      end
  | _ => None
  end.

(** The messages posted to a recipient along a log. *)
Definition posts_to (v : json) (l : list effect) : list api_payload :=
  filter (fun p => json_eqb (recipient_id p) v) (posts l).

(** The messages the bot composes, over a question bank. *)
Definition bot_message (qs : list question) (m : message) : Prop :=
  (exists q, In q qs /\ m = question_message q) \/
  (exists e, m = completion_message e) \/
  (exists q a, In q qs /\ m = grade_message q a) \/
  m = unknown_command_message.

(** The effects the bot causes, over a question bank: pushes of id strings
    of stored questions, and posts of its own messages as responses. *)
Definition bot_effect (qs : list question) (e : effect) : Prop :=
  match e with
  | Push _ s => exists q, In q qs /\ s = Oid.to_str (q_id q)
  | Post p =>
      messaging_type p = "RESPONSE" /\ bot_message qs (message_payload p)
  end.

(** Every seen string of every user is an ObjectId. *)
Definition seen_parse (w : world) : Prop :=
  forall v s, In s (seen_ids_of (users w) v) -> Oid.of_str s <> None.

(** Whether a user has a document. *)
Definition has_user (us : list user_doc) (u : json) : bool :=
  existsb (fun d => json_eqb (u_id d) u) us.

(** ** Events of the expected shape *)

(** A postback payload the grader can read: any payload without the answer
    marker, or an answer payload with its id and letter parts whose id part
    is an ObjectId. *)
Definition readable_payload (payload : string) : Prop :=
  PyStr.startswith payload "ANSWER_" = false \/
  exists qid a o,
    nth_error (PyStr.split PyStr.underscore payload) 1 = Some qid /\
    nth_error (PyStr.split PyStr.underscore payload) 2 = Some a /\
    Oid.of_str qid = Some o.

(** The events the platform sends for a text and for a click. *)
Inductive expected_event : json -> Prop :=
| expected_text (sender : json) (text : string) :
    text <> "" -> expected_event (text_event sender text)
| expected_postback (sender : json) (payload : string) :
    readable_payload payload ->
    expected_event (postback_event sender payload).

(** Normal operation: the store reachable, its ids store-assigned, the seen
    strings readable. *)
Definition healthy (w : world) : Prop :=
  store_budget w = None /\ store_assigned w /\ seen_parse w.

(** * Verification *)

(** ** Strings *)

Lemma split_no_sep (sep : ascii) (s : string) :
  PyStr.has_char sep s = false -> PyStr.split sep s = [s].
Proof.
  induction s as [|c s IH]; simpl; intros H; [reflexivity|].
  apply orb_false_iff in H as [Hc Hs].
  rewrite Hc, (IH Hs). reflexivity.
Qed.

Lemma split_app (sep : ascii) (s t : string) :
  PyStr.has_char sep s = false ->
  PyStr.split sep (s +++ String sep t) = s :: PyStr.split sep t.
Proof.
  induction s as [|c s IH]; simpl; intros H.
  - rewrite Ascii.eqb_refl. reflexivity.
  - apply orb_false_iff in H as [Hc Hs].
    rewrite Hc, (IH Hs). reflexivity.
Qed.

Lemma prefix_app (p s : string) : String.prefix p (p +++ s) = true.
Proof.
  induction p as [|c p IH]; simpl.
  - destruct s; reflexivity.
  - rewrite IH. destruct (ascii_dec c c); congruence.
Qed.

(** ** ObjectId: [str] and back *)

Lemma fromhex_byte (b : byte) (s : string) :
  Oid.fromhex (String (Oid.hexdigit (Byte.to_N b / 16))
                 (String (Oid.hexdigit (Byte.to_N b mod 16)) s))
  = match Oid.fromhex s with
    | Some bs => Some (b :: bs)
    | None => None
    end.
Proof. destruct b; reflexivity. Qed.

Lemma fromhex_to_str (o : Oid.ObjectId) :
  Oid.fromhex (Oid.to_str o) = Some o.
Proof.
  induction o as [|b o IH]; [reflexivity|].
  cbn [Oid.to_str]. cbv zeta. rewrite fromhex_byte, IH. reflexivity.
Qed.

Lemma length_to_str (o : Oid.ObjectId) :
  String.length (Oid.to_str o) = 2 * List.length o.
Proof.
  induction o as [|b o IH]; [reflexivity|].
  cbn [Oid.to_str String.length List.length]. rewrite IH. lia.
Qed.

(** The round trip of a store-assigned id through its string. *)
Lemma of_str_to_str (o : Oid.ObjectId) :
  Oid.assigned o -> Oid.of_str (Oid.to_str o) = Some o.
Proof.
  unfold Oid.assigned, Oid.of_str. intros H.
  rewrite length_to_str, H. simpl. apply fromhex_to_str.
Qed.

Lemma hexdigits_no_underscore (b : byte) :
  Ascii.eqb (Oid.hexdigit (Byte.to_N b / 16)) PyStr.underscore = false /\
  Ascii.eqb (Oid.hexdigit (Byte.to_N b mod 16)) PyStr.underscore = false.
Proof. destruct b; split; reflexivity. Qed.

Lemma to_str_no_underscore (o : Oid.ObjectId) :
  PyStr.has_char PyStr.underscore (Oid.to_str o) = false.
Proof.
  induction o as [|b o IH]; [reflexivity|].
  cbn [Oid.to_str PyStr.has_char]. cbv zeta.
  destruct (hexdigits_no_underscore b) as [H1 H2].
  rewrite H1, H2, IH. reflexivity.
Qed.

Lemma oid_eqb_eq (a b : Oid.ObjectId) : Oid.eqb a b = true <-> a = b.
Proof.
  unfold Oid.eqb. destruct (list_eq_dec Byte.byte_eq_dec a b); split;
    congruence.
Qed.

Lemma oid_eqb_refl (a : Oid.ObjectId) : Oid.eqb a a = true.
Proof. apply oid_eqb_eq. reflexivity. Qed.

(** ** Equality of decoded values *)

Lemma json_eqb_eq (a : json) : forall b, json_eqb a b = true -> a = b.
Proof.
  revert a.
  fix IH 1.
  intros [ | x | x | x | x | x] [ | y | y | y | y | y]; simpl;
    try discriminate; try reflexivity; intros H.
  - apply Bool.eqb_prop in H. congruence.
  - apply Z.eqb_eq in H. congruence.
  - apply String.eqb_eq in H. congruence.
  - f_equal. revert y H.
    induction x as [|a x IHx]; intros [|b y] H; try discriminate;
      [reflexivity|].
    apply andb_true_iff in H as [H1 H2].
    f_equal; [apply IH; exact H1 | apply IHx; exact H2].
  - f_equal. revert y H.
    induction x as [|[k a] x IHx]; intros [|[k' b] y] H; try discriminate;
      [reflexivity|].
    apply andb_true_iff in H as [H12 H3].
    apply andb_true_iff in H12 as [H1 H2].
    apply String.eqb_eq in H1. subst k'.
    f_equal; [f_equal; apply IH; exact H2 | apply IHx; exact H3].
Qed.

Lemma json_eqb_refl (a : json) : json_eqb a a = true.
Proof.
  revert a.
  fix IH 1.
  intros [ | x | x | x | x | x]; simpl; try reflexivity.
  - apply Bool.eqb_reflx.
  - apply Z.eqb_refl.
  - apply String.eqb_refl.
  - induction x as [|a x IHx]; [reflexivity|].
    rewrite IH, IHx. reflexivity.
  - induction x as [|[k a] x IHx]; [reflexivity|].
    rewrite String.eqb_refl, IH, IHx. reflexivity.
Qed.

Lemma json_eqb_neq (a b : json) : a <> b -> json_eqb a b = false.
Proof.
  intros H. destruct (json_eqb a b) eqn:E; [|reflexivity].
  apply json_eqb_eq in E. contradiction.
Qed.

(** ** The store operations *)

Lemma same_data_refl (w : world) : same_data w w.
Proof. repeat split. Qed.

Lemma same_data_trans (w1 w2 w3 : world) :
  same_data w1 w2 -> same_data w2 w3 -> same_data w1 w3.
Proof.
  unfold same_data. intros (A1 & A2 & A3) (B1 & B2 & B3).
  repeat split; congruence.
Qed.

#[local] Hint Resolve same_data_refl : core.

Lemma store_op_inv (w w' : world) (r : result unit) :
  store_op w = (r, w') ->
  same_data w w' /\
  ((r = Raise StoreError /\ w' = w /\ store_budget w = Some 0) \/
   (r = Ok tt /\ store_budget w <> Some 0 /\
    (store_budget w = None -> w' = w))).
Proof.
  unfold store_op. destruct (store_budget w) as [[|n]|] eqn:E;
    intros H; inversion H; subst; clear H.
  - split; [auto|]. left. auto.
  - split; [repeat split|]. right. repeat split; congruence.
  - split; [auto|]. right. repeat split; congruence.
Qed.

Lemma store_op_down (w : world) :
  store_budget w = Some 0 -> store_op w = (Raise StoreError, w).
Proof. unfold store_op. intros ->. reflexivity. Qed.

Lemma store_op_up (w : world) :
  store_budget w = None -> store_op w = (Ok tt, w).
Proof. unfold store_op. intros ->. reflexivity. Qed.

Lemma next_draw_inv (w w' : world) (r : result nat) :
  next_draw w = (r, w') ->
  same_data w w' /\ store_budget w' = store_budget w /\ exists d, r = Ok d.
Proof.
  unfold next_draw. destruct (rand w) as [|d rs];
    intros H; inversion H; subst; clear H.
  - repeat split. exists 0. reflexivity.
  - repeat split. exists d. reflexivity.
Qed.

(** The comprehension over the seen ids touches nothing; it succeeds
    exactly when every string is an ObjectId. *)
Lemma object_ids_inv (l : list string) (w w' : world)
    (r : result (list Oid.ObjectId)) :
  object_ids l w = (r, w') ->
  w' = w /\
  match r with
  | Ok os => Forall2 (fun s o => Oid.of_str s = Some o) l os
  | Raise e => exists s, In s l /\ Oid.of_str s = None /\ e = InvalidId s
  end.
Proof.
  revert r w'. induction l as [|s l IH]; intros r w'; simpl.
  - unfold ret. intros H; inversion H; subst. split; constructor.
  - unfold bind, ObjectId. destruct (Oid.of_str s) as [o|] eqn:Es.
    + unfold ret at 1.
      destruct (object_ids l w) as [[os|e] w1] eqn:El;
        destruct (IH _ _ eq_refl) as [-> Hr].
      * unfold ret. intros H; inversion H; subst. split; [reflexivity|].
        constructor; assumption.
      * intros H; inversion H; subst. split; [reflexivity|].
        destruct Hr as (s' & Hin & Hnone & ->).
        exists s'. split; [right; exact Hin | split; auto].
    + unfold raise. intros H; inversion H; subst. split; [reflexivity|].
      exists s. split; [left; reflexivity | split; auto].
Qed.

(** An id is excluded by [$nin] exactly when one of the seen strings is
    its string form read back. *)
Lemma existsb_parsed (l : list string) (os : list Oid.ObjectId)
    (o : Oid.ObjectId) :
  Forall2 (fun s o => Oid.of_str s = Some o) l os ->
  existsb (Oid.eqb o) os = true <->
  exists s, In s l /\ Oid.of_str s = Some o.
Proof.
  induction 1 as [|s o' l os Hs _ IH]; simpl.
  - split; [discriminate | intros (s & [] & _)].
  - rewrite orb_true_iff, IH, oid_eqb_eq. split.
    + intros [-> | (s' & Hin & Hs')].
      * exists s. auto.
      * exists s'. auto.
    + intros (s' & [-> | Hin] & Hs').
      * left. congruence.
      * right. exists s'. auto.
Qed.

Lemma sample1_incl (d : nat) (docs : list question) (q : question) :
  In q (sample1 d docs) -> In q docs.
Proof.
  unfold sample1. destruct (nth_error docs _) as [q'|] eqn:E; [|intros []].
  intros [<- | []]. eapply nth_error_In; eauto.
Qed.

Lemma sample1_nonempty (d : nat) (docs : list question) :
  docs <> [] -> exists q, sample1 d docs = [q].
Proof.
  intros Hne. unfold sample1.
  destruct (nth_error docs (d mod List.length docs)) as [q|] eqn:E.
  - exists q. reflexivity.
  - apply nth_error_None in E.
    assert (List.length docs <> 0) by (destruct docs; simpl; congruence).
    pose proof (Nat.mod_upper_bound d (List.length docs) H). lia.
Qed.

Lemma sample1_nil (d : nat) : sample1 d [] = [].
Proof. unfold sample1. simpl. destruct d; reflexivity. Qed.

Lemma db_users_find_one_inv (u : json) (w w' : world)
    (r : result (option user_doc)) :
  db_users_find_one u w = (r, w') ->
  same_data w w' /\
  (store_budget w = None -> store_budget w' = None) /\
  ((r = Raise StoreError /\ w' = w /\ store_budget w = Some 0) \/
   (r = Ok (find (fun d => json_eqb (u_id d) u) (users w)) /\
    store_budget w <> Some 0)).
Proof.
  unfold db_users_find_one, bind.
  destruct (store_op w) as [[[]|e] w1] eqn:E; intros H; inversion H; subst;
    clear H; apply store_op_inv in E as [Hd [(He & Hw & Hb) | (He & Hb & Hn)]];
    try discriminate.
  - split; [exact Hd|]. split; [intros Hb'; rewrite (Hn Hb'); exact Hb'|].
    right. destruct Hd as (_ & -> & _). auto.
  - inversion He; subst. split; [exact Hd|]. split; [auto|]. left. auto.
Qed.

Lemma db_questions_aggregate_inv (e : string) (os : list Oid.ObjectId)
    (w w' : world) (r : result (list question)) :
  db_questions_aggregate e os w = (r, w') ->
  same_data w w' /\
  (store_budget w = None -> store_budget w' = None) /\
  ((r = Raise StoreError /\ w' = w /\ store_budget w = Some 0) \/
   (store_budget w <> Some 0 /\
    exists d, r = Ok (sample1 d (filter (matches e os) (questions w))))).
Proof.
  unfold db_questions_aggregate, bind.
  destruct (store_op w) as [[[]|x] w1] eqn:E;
    apply store_op_inv in E as [Hd [(He & Hw & Hb) | (He & Hb & Hn)]];
    try discriminate.
  - destruct (next_draw w1) as [[d|x] w2] eqn:E2;
      apply next_draw_inv in E2 as (Hd2 & Hb2 & d' & Hr); try discriminate.
    inversion Hr; subst d'. intros H; inversion H; subst; clear H.
    split; [eapply same_data_trans; eauto|].
    split; [intros Hb'; rewrite Hb2, (Hn Hb'); exact Hb'|].
    right. split; [exact Hb|]. exists d.
    destruct Hd2 as (-> & _). destruct Hd as (-> & _). reflexivity.
  - inversion He; subst. intros H; inversion H; subst; clear H.
    split; [auto|]. split; [auto|]. left. auto.
Qed.

(** What [fetch_unseen_question] can do: it changes no document and logs
    nothing; a question it returns is one of the exam whose id none of the
    seen strings denotes; it returns [None] only when no such question is
    left; and it raises when the store is unreachable or a seen string is
    no ObjectId. *)
Lemma fetch_unseen_question_inv (u : json) (e : string) (w w' : world)
    (r : result (option question)) :
  fetch_unseen_question u e w = (r, w') ->
  same_data w w' /\
  (store_budget w = None -> store_budget w' = None) /\
  match r with
  | Ok found =>
      exists os,
        Forall2 (fun s o => Oid.of_str s = Some o)
                (seen_ids_of (users w) u) os /\
        match found with
        | Some q => In q (filter (matches e os) (questions w))
        | None => filter (matches e os) (questions w) = []
        end
  | Raise StoreError => store_budget w' = Some 0
  | Raise (InvalidId s) =>
      In s (seen_ids_of (users w) u) /\ Oid.of_str s = None
  | Raise _ => False
  end.
Proof.
  unfold fetch_unseen_question, bind.
  destruct (db_users_find_one u w) as [[d|x] w1] eqn:E1;
    apply db_users_find_one_inv in E1
      as (Hd1 & Hn1 & [(He & Hw & Hb) | (He & Hb)]); try discriminate.
  - inversion He; subst d; clear He.
    fold (seen_ids_of (users w) u).
    destruct (object_ids (seen_ids_of (users w) u) w1) as [[os|x] w2] eqn:E2;
      apply object_ids_inv in E2 as [-> Hr].
    + destruct (db_questions_aggregate e os w1) as [[res|x] w3] eqn:E3;
        apply db_questions_aggregate_inv in E3
          as (Hd3 & Hn3 & [(He & Hw & Hb3) | (Hb3 & dr & He)]);
        try discriminate.
      * inversion He; subst res; clear He.
        unfold ret. intros H; inversion H; subst; clear H.
        split; [eapply same_data_trans; eauto|]. split; [auto|].
        exists os. split; [exact Hr|].
        destruct Hd1 as (Hq & _). rewrite Hq.
        destruct (filter (matches e os) (questions w)) as [|q0 l0] eqn:Ef.
        -- rewrite sample1_nil. reflexivity.
        -- destruct (@sample1_nonempty dr (q0 :: l0)) as [q Hq'];
             [discriminate|].
           rewrite Hq'. rewrite <- Ef.
           rewrite <- Ef in Hq'. eapply sample1_incl. rewrite Hq'.
           left; reflexivity.
      * inversion He; subst; clear He.
        intros H; inversion H; subst; clear H.
        split; [exact Hd1|]. split; [auto|]. exact Hb3.
    + destruct Hr as (s & Hin & Hnone & ->).
      intros H; inversion H; subst; clear H.
      split; [exact Hd1|]. split; [auto|]. split; assumption.
  - inversion He; subst; clear He.
    intros H; inversion H; subst; clear H.
    split; [auto|]. split; [auto|]. exact Hb.
Qed.

(** ** Seen lists *)

Lemma seen_ids_of_push_same (u : json) (s : string) (us : list user_doc) :
  seen_ids_of (push_seen u s us) u = seen_ids_of us u ++ [s].
Proof.
  unfold seen_ids_of. induction us as [|d us IH]; simpl.
  - rewrite json_eqb_refl. reflexivity.
  - destruct (json_eqb (u_id d) u) eqn:E; simpl; rewrite E.
    + destruct (u_seen_question_ids d); reflexivity.
    + exact IH.
Qed.

Lemma seen_ids_of_push_other (u u' : json) (s : string) (us : list user_doc) :
  u' <> u -> seen_ids_of (push_seen u' s us) u = seen_ids_of us u.
Proof.
  intros Hne. unfold seen_ids_of. induction us as [|d us IH]; simpl.
  - rewrite (json_eqb_neq _ _ Hne). reflexivity.
  - destruct (json_eqb (u_id d) u') eqn:E; simpl.
    + apply json_eqb_eq in E. rewrite E, (json_eqb_neq _ _ Hne). reflexivity.
    + destruct (json_eqb (u_id d) u); [reflexivity | exact IH].
Qed.

(** A [$push] only ever extends a seen list. *)
Lemma seen_ids_of_push_incl (u u' : json) (s : string) (us : list user_doc) :
  incl (seen_ids_of us u) (seen_ids_of (push_seen u' s us) u).
Proof.
  destruct (json_eqb u' u) eqn:E.
  - apply json_eqb_eq in E. subst u'. rewrite seen_ids_of_push_same.
    apply incl_appl, incl_refl.
  - rewrite seen_ids_of_push_other; [apply incl_refl|].
    intros ->. rewrite json_eqb_refl in E. discriminate.
Qed.

(** ** [handle_new_question_request], case by case *)

Lemma mark_question_as_seen_inv (u : json) (o : Oid.ObjectId) (w : world) :
  (store_budget w = Some 0 /\
   mark_question_as_seen u o w = (Raise StoreError, w)) \/
  (store_budget w <> Some 0 /\
   exists w', mark_question_as_seen u o w = (Ok tt, w') /\
     questions w' = questions w /\
     users w' = push_seen u (Oid.to_str o) (users w) /\
     log w' = log w ++ [Push u (Oid.to_str o)] /\
     (store_budget w = None -> store_budget w' = None)).
Proof.
  unfold mark_question_as_seen, db_users_update_one_push, bind.
  destruct (store_op w) as [[[]|x] w1] eqn:E;
    apply store_op_inv in E as [Hd [(He & Hw & Hb) | (He & Hb & Hn)]];
    try discriminate.
  - right. split; [exact Hb|]. eexists. split; [reflexivity|].
    destruct Hd as (Hq & Hu & Hl). simpl. rewrite Hq, Hu, Hl.
    repeat split. intros Hb'. rewrite (Hn Hb'). exact Hb'.
  - inversion He; subst. left. auto.
Qed.

Lemma handle_new_question_request_served (u : json) (e : string)
    (w w1 : world) (q : question) :
  fetch_unseen_question u e w = (Ok (Some q), w1) ->
  store_budget w1 <> Some 0 ->
  exists w',
    handle_new_question_request u e w = (Ok tt, w') /\
    questions w' = questions w /\
    users w' = push_seen u (Oid.to_str (q_id q)) (users w) /\
    log w' = log w ++ [Push u (Oid.to_str (q_id q));
                       post_of u (question_message q)] /\
    (store_budget w = None -> store_budget w' = None).
Proof.
  intros Hf Hb. unfold handle_new_question_request, bind. rewrite Hf.
  destruct (fetch_unseen_question_inv _ _ _ _ _ Hf) as ((Hq & Hu & Hl) & Hn & _).
  destruct (mark_question_as_seen_inv u (q_id q) w1)
    as [(Hb' & _) | (_ & w2 & -> & Hq2 & Hu2 & Hl2 & Hn2)]; [contradiction|].
  eexists. split; [reflexivity|]. simpl.
  rewrite Hq2, Hu2, Hl2, Hq, Hu, Hl, <- app_assoc. repeat split. auto.
Qed.

Lemma handle_new_question_request_mark_fails (u : json) (e : string)
    (w w1 : world) (q : question) :
  fetch_unseen_question u e w = (Ok (Some q), w1) ->
  store_budget w1 = Some 0 ->
  handle_new_question_request u e w = (Raise StoreError, w1).
Proof.
  intros Hf Hb. unfold handle_new_question_request, bind. rewrite Hf.
  destruct (mark_question_as_seen_inv u (q_id q) w1)
    as [(_ & ->) | (Hb' & _)]; [reflexivity | contradiction].
Qed.

Lemma handle_new_question_request_exhausted (u : json) (e : string)
    (w w1 : world) :
  fetch_unseen_question u e w = (Ok None, w1) ->
  handle_new_question_request u e w
  = (Ok tt, add_log (post_of u (completion_message e)) w1).
Proof.
  intros Hf. unfold handle_new_question_request, bind. rewrite Hf.
  reflexivity.
Qed.

Lemma handle_new_question_request_raises (u : json) (e : string)
    (w w1 : world) (x : exn) :
  fetch_unseen_question u e w = (Raise x, w1) ->
  handle_new_question_request u e w = (Raise x, w1).
Proof.
  intros Hf. unfold handle_new_question_request, bind. rewrite Hf.
  reflexivity.
Qed.

(** Whatever a request does, questions are untouched, seen lists only grow
    and a reachable store stays reachable. *)
Lemma handle_new_question_request_frame (u : json) (e : string) (w : world) :
  let w' := snd (handle_new_question_request u e w) in
  questions w' = questions w /\
  (forall v, incl (seen_ids_of (users w) v) (seen_ids_of (users w') v)) /\
  (store_budget w = None -> store_budget w' = None).
Proof.
  destruct (fetch_unseen_question u e w) as [[[q|]|x] w1] eqn:Hf;
    pose proof (fetch_unseen_question_inv _ _ _ _ _ Hf) as ((Hq & Hu & Hl) & Hn & _).
  - assert (store_budget w1 = Some 0 \/ store_budget w1 <> Some 0)
      as [Hb|Hb]
      by (destruct (store_budget w1) as [[|n]|];
          [left; reflexivity | right; discriminate | right; discriminate]).
    + rewrite (handle_new_question_request_mark_fails _ _ _ _ _ Hf Hb). simpl.
      rewrite Hu. repeat split; auto using incl_refl.
    + destruct (handle_new_question_request_served _ _ _ _ _ Hf Hb)
        as (w' & -> & Hq' & Hu' & _ & Hn').
      simpl. rewrite Hu'. repeat split; auto using seen_ids_of_push_incl.
  - rewrite (handle_new_question_request_exhausted _ _ _ _ Hf). simpl.
    rewrite Hu. repeat split; auto using incl_refl.
  - rewrite (handle_new_question_request_raises _ _ _ _ _ Hf). simpl.
    rewrite Hu. repeat split; auto using incl_refl.
Qed.

(** ** What the client decodes from the buttons *)

Lemma split_answer_payload (o : Oid.ObjectId) (letter : string) :
  PyStr.has_char PyStr.underscore letter = false ->
  PyStr.split PyStr.underscore
    (b_payload (answer_button "X" (Oid.to_str o) letter))
  = ["ANSWER"; Oid.to_str o; letter].
Proof.
  intros Hl. unfold answer_button, b_payload.
  change ("ANSWER_" +++ Oid.to_str o +++ "_" +++ letter)
    with ("ANSWER" +++ String PyStr.underscore
            (Oid.to_str o +++ String PyStr.underscore letter)).
  rewrite split_app by reflexivity.
  rewrite split_app by apply to_str_no_underscore.
  rewrite split_no_sep by exact Hl. reflexivity.
Qed.

Lemma served_id_question_message (q : question) :
  served_id (question_message q) = Some (Oid.to_str (q_id q)).
Proof.
  unfold served_id, question_message, m_quick_replies.
  change (b_payload (answer_button "A" (Oid.to_str (q_id q)) "a"))
    with (b_payload (answer_button "X" (Oid.to_str (q_id q)) "a")).
  rewrite split_answer_payload by reflexivity.
  unfold PyStr.startswith, answer_button, b_payload.
  rewrite prefix_app. reflexivity.
Qed.

Lemma served_to_app (u : json) (l l' : list effect) :
  served_to u (l ++ l') = served_to u l ++ served_to u l'.
Proof.
  induction l as [|[v s|p] l IH]; simpl; [reflexivity | exact IH |].
  destruct (json_eqb (recipient_id p) u); [|exact IH].
  destruct (served_id (message_payload p)); simpl; congruence.
Qed.

Lemma of_str_to_str_inv (o o' : Oid.ObjectId) :
  Oid.of_str (Oid.to_str o) = Some o' -> o' = o.
Proof.
  unfold Oid.of_str. destruct (_ =? _); [|discriminate].
  rewrite fromhex_to_str. congruence.
Qed.

(** ** Selection excludes what the user has seen *)

Lemma Forall2_parsed_in (l : list string) (os : list Oid.ObjectId)
    (s : string) :
  Forall2 (fun s o => Oid.of_str s = Some o) l os ->
  In s l -> exists o, Oid.of_str s = Some o.
Proof.
  induction 1 as [|s' o l os Hs _ IH]; intros [].
  - subst. eauto.
  - auto.
Qed.

Lemma fetched_not_seen (u : json) (e : string) (w w1 : world) (q : question) :
  fetch_unseen_question u e w = (Ok (Some q), w1) ->
  In q (questions w) /\ q_exam_name q = e /\
  ~ In (Oid.to_str (q_id q)) (seen_ids_of (users w) u).
Proof.
  intros Hf.
  destruct (fetch_unseen_question_inv _ _ _ _ _ Hf) as (_ & _ & os & Hp & Hin).
  apply filter_In in Hin as [Hin Hm]. unfold matches in Hm.
  apply andb_true_iff in Hm as [He Hx].
  split; [exact Hin|]. split; [apply String.eqb_eq; exact He|].
  intros Hseen. apply negb_true_iff in Hx.
  assert (existsb (Oid.eqb (q_id q)) os = true) as Ht; [|congruence].
  apply (existsb_parsed _ _ (q_id q) Hp). exists (Oid.to_str (q_id q)).
  split; [exact Hseen|].
  destruct (Forall2_parsed_in _ _ _ Hp Hseen) as [o Ho].
  rewrite Ho. f_equal. apply of_str_to_str_inv. exact Ho.
Qed.

(** ** The invariant of a run *)

Lemma served_once_serve (rq : json * string) (w : world) :
  served_once w -> served_once (serve rq w).
Proof.
  destruct rq as [v e]. unfold serve. simpl. intros Hinv u.
  destruct (Hinv u) as [Hnd Hincl].
  destruct (fetch_unseen_question v e w) as [[[q|]|x] w1] eqn:Hf;
    pose proof (fetch_unseen_question_inv _ _ _ _ _ Hf)
      as ((Hq & Hu & Hl) & _ & _).
  - assert (store_budget w1 = Some 0 \/ store_budget w1 <> Some 0)
      as [Hb|Hb]
      by (destruct (store_budget w1) as [[|n]|];
          [left; reflexivity | right; discriminate | right; discriminate]).
    + rewrite (handle_new_question_request_mark_fails _ _ _ _ _ Hf Hb).
      simpl. rewrite Hu, Hl. auto.
    + destruct (handle_new_question_request_served _ _ _ _ _ Hf Hb)
        as (w' & -> & _ & Hu' & Hl' & _).
      simpl. rewrite Hu', Hl', served_to_app. simpl.
      rewrite served_id_question_message.
      destruct (json_eqb v u) eqn:Evu.
      * apply json_eqb_eq in Evu. subst v.
        rewrite seen_ids_of_push_same.
        destruct (fetched_not_seen _ _ _ _ _ Hf) as (_ & _ & Hfresh).
        split.
        -- apply NoDup_app; [exact Hnd | repeat constructor; intros [] |].
           intros s Hs [<- | []]. apply Hfresh, Hincl, Hs.
        -- apply incl_app; [apply incl_appl; exact Hincl|].
           apply incl_appr, incl_refl.
      * rewrite app_nil_r. split; [exact Hnd|].
        eapply incl_tran; [exact Hincl | apply seen_ids_of_push_incl].
  - rewrite (handle_new_question_request_exhausted _ _ _ _ Hf). simpl.
    rewrite Hu, Hl, served_to_app. simpl.
    destruct (json_eqb v u); rewrite app_nil_r; auto.
  - rewrite (handle_new_question_request_raises _ _ _ _ _ Hf). simpl.
    rewrite Hu, Hl. auto.
Qed.

(** ** Exhaustion is final *)

Lemma Forall2_parsed_all (l : list string) (os : list Oid.ObjectId) :
  Forall2 (fun s o => Oid.of_str s = Some o) l os ->
  forall s, In s l -> Oid.of_str s <> None.
Proof.
  intros Hp s Hin. destruct (Forall2_parsed_in _ _ _ Hp Hin) as [o Ho].
  congruence.
Qed.

Lemma fetch_none_exhausted (u : json) (e : string) (w w1 : world) :
  fetch_unseen_question u e w = (Ok None, w1) -> exhausted w u e.
Proof.
  intros Hf.
  destruct (fetch_unseen_question_inv _ _ _ _ _ Hf) as (_ & _ & os & Hp & Hnil).
  split; [exact (Forall2_parsed_all _ _ Hp)|].
  intros q Hin He. apply (existsb_parsed _ _ (q_id q) Hp).
  destruct (existsb (Oid.eqb (q_id q)) os) eqn:Ex; [reflexivity|].
  assert (In q (filter (matches e os) (questions w))) as Hq.
  { apply filter_In. split; [exact Hin|]. unfold matches.
    rewrite Ex, He, String.eqb_refl. reflexivity. }
  rewrite Hnil in Hq. destruct Hq.
Qed.

Lemma exhausted_fetch (u : json) (e : string) (w : world) :
  store_budget w = None -> exhausted w u e ->
  exists w1, fetch_unseen_question u e w = (Ok None, w1) /\ same_data w w1.
Proof.
  intros Hb [Hparse Hall].
  destruct (fetch_unseen_question u e w) as [r w1] eqn:Hf.
  destruct (fetch_unseen_question_inv _ _ _ _ _ Hf) as (Hd & Hn & Hr).
  exists w1. split; [|exact Hd]. f_equal.
  destruct r as [[q|]|x].
  - exfalso. destruct Hr as (os & Hp & Hin).
    apply filter_In in Hin as [Hin Hm]. unfold matches in Hm.
    apply andb_true_iff in Hm as [He Hx]. apply String.eqb_eq in He.
    apply negb_true_iff in Hx.
    assert (existsb (Oid.eqb (q_id q)) os = true) as Ht; [|congruence].
    apply (existsb_parsed _ _ (q_id q) Hp). exact (Hall q Hin He).
  - reflexivity.
  - exfalso. destruct x; try contradiction.
    + destruct Hr as [Hin Hnone]. exact (Hparse _ Hin Hnone).
    + rewrite (Hn Hb) in Hr. discriminate.
Qed.

(** Where the strings of a seen list come from after a request: they were
    there, or they are the string of a stored question's id. *)
Lemma serve_seen_origin (rq : json * string) (w : world) (v : json)
    (s : string) :
  In s (seen_ids_of (users (serve rq w)) v) ->
  In s (seen_ids_of (users w) v) \/
  exists q, In q (questions w) /\ s = Oid.to_str (q_id q).
Proof.
  destruct rq as [u e]. unfold serve. simpl.
  destruct (fetch_unseen_question u e w) as [[[q|]|x] w1] eqn:Hf;
    pose proof (fetch_unseen_question_inv _ _ _ _ _ Hf)
      as ((Hq & Hu & Hl) & _ & _).
  - assert (store_budget w1 = Some 0 \/ store_budget w1 <> Some 0)
      as [Hb|Hb]
      by (destruct (store_budget w1) as [[|n]|];
          [left; reflexivity | right; discriminate | right; discriminate]).
    + rewrite (handle_new_question_request_mark_fails _ _ _ _ _ Hf Hb).
      simpl. rewrite Hu. auto.
    + destruct (handle_new_question_request_served _ _ _ _ _ Hf Hb)
        as (w' & -> & _ & Hu' & _).
      simpl. rewrite Hu'.
      destruct (fetched_not_seen _ _ _ _ _ Hf) as (Hin & _).
      destruct (json_eqb u v) eqn:Euv.
      * apply json_eqb_eq in Euv. subst v. rewrite seen_ids_of_push_same.
        intros Hs. apply in_app_or in Hs as [Hs | [<- | []]]; [auto|].
        right. exists q. auto.
      * rewrite seen_ids_of_push_other; [auto|].
        intros ->. rewrite json_eqb_refl in Euv. discriminate.
  - rewrite (handle_new_question_request_exhausted _ _ _ _ Hf). simpl.
    rewrite Hu. auto.
  - rewrite (handle_new_question_request_raises _ _ _ _ _ Hf). simpl.
    rewrite Hu. auto.
Qed.

Lemma serve_frame (rq : json * string) (w : world) :
  questions (serve rq w) = questions w /\
  (forall v, incl (seen_ids_of (users w) v)
                  (seen_ids_of (users (serve rq w)) v)) /\
  (store_budget w = None -> store_budget (serve rq w) = None).
Proof. destruct rq as [u e]. apply handle_new_question_request_frame. Qed.

(** ** The grader *)

Lemma get_question_by_id_inv (s : string) (w w' : world)
    (r : result (option question)) :
  get_question_by_id s w = (r, w') ->
  same_data w w' /\
  match r with
  | Ok found =>
      exists o, Oid.of_str s = Some o /\
        found = find (fun q => Oid.eqb (q_id q) o) (questions w)
  | Raise (InvalidId s') => s' = s /\ Oid.of_str s = None
  | Raise StoreError => store_budget w = Some 0
  | Raise _ => False
  end.
Proof.
  unfold get_question_by_id, bind, ObjectId.
  destruct (Oid.of_str s) as [o|] eqn:Es.
  - unfold ret at 1. unfold db_questions_find_one, bind.
    destruct (store_op w) as [[[]|x] w1] eqn:E;
      apply store_op_inv in E as [Hd [(He & Hw & Hb) | (He & Hb & Hn)]];
      try discriminate; intros H; inversion H; subst; clear H.
    + split; [exact Hd|]. exists o. split; [reflexivity|].
      destruct Hd as (-> & _). reflexivity.
    + inversion He; subst. split; [auto|]. exact Hb.
  - unfold raise. intros H; inversion H; subst. split; auto.
Qed.

Lemma get_question_by_id_reachable (s : string) (o : Oid.ObjectId)
    (w : world) :
  Oid.of_str s = Some o -> store_budget w <> Some 0 ->
  exists w1, same_data w w1 /\
    (store_budget w = None -> w1 = w) /\
    get_question_by_id s w
    = (Ok (find (fun q => Oid.eqb (q_id q) o) (questions w)), w1).
Proof.
  intros Hs Hb.
  destruct (get_question_by_id s w) as [r w1] eqn:Hg.
  unfold get_question_by_id, bind, ObjectId in Hg. rewrite Hs in Hg.
  unfold ret at 1 in Hg. unfold db_questions_find_one, bind in Hg.
  destruct (store_op w) as [[[]|x] w2] eqn:E;
    apply store_op_inv in E as [Hd [(He & Hw & Hb') | (He & _ & Hn)]];
    try discriminate; try contradiction.
  inversion Hg; subst; clear Hg.
  exists w1. split; [exact Hd|]. split; [exact Hn|].
  destruct Hd as (-> & _). reflexivity.
Qed.

(** An ANSWER postback either sends nothing, or it found the question its
    second part names and sends that question's grading. *)
Lemma handle_postback_answer_inv (u : json) (s : string) (w w' : world)
    (r : result unit) :
  PyStr.startswith s "ANSWER_" = true ->
  handle_postback u (JStr s) w = (r, w') ->
  questions w' = questions w /\ users w' = users w /\
  (log w' = log w \/
   exists qid ans o q,
     nth_error (parts_of s) 1 = Some qid /\
     nth_error (parts_of s) 2 = Some ans /\
     Oid.of_str qid = Some o /\
     find (fun x => Oid.eqb (q_id x) o) (questions w) = Some q /\
     r = Ok tt /\
     log w' = log w ++ [post_of u (grade_message q ans)]).
Proof.
  intros Hp. unfold handle_postback. rewrite Hp. fold (parts_of s).
  unfold bind, py_index.
  destruct (nth_error (parts_of s) 1) as [qid|] eqn:E1;
    [|unfold raise; intros H; inversion H; subst; auto].
  unfold ret at 1.
  destruct (nth_error (parts_of s) 2) as [ans|] eqn:E2;
    [|unfold raise; intros H; inversion H; subst; auto].
  unfold ret at 1.
  destruct (get_question_by_id qid w) as [[found|x] w1] eqn:Hg;
    apply get_question_by_id_inv in Hg as ((Hq & Hu & Hl) & Hr).
  - destruct Hr as (o & Ho & Hfound).
    destruct found as [q|].
    + unfold send_message. intros H; inversion H; subst; clear H.
      simpl. rewrite Hq, Hu, Hl. repeat split. right.
      exists qid, ans, o, q. repeat split; auto.
    + unfold ret. intros H; inversion H; subst; clear H. auto.
  - intros H; inversion H; subst; clear H. auto.
Qed.

Lemma handle_postback_answer_reachable (u : json) (s qid ans : string)
    (o : Oid.ObjectId) (w : world) :
  PyStr.startswith s "ANSWER_" = true ->
  nth_error (parts_of s) 1 = Some qid ->
  nth_error (parts_of s) 2 = Some ans ->
  Oid.of_str qid = Some o ->
  store_budget w <> Some 0 ->
  exists w1, same_data w w1 /\ (store_budget w = None -> w1 = w) /\
    handle_postback u (JStr s) w
    = match find (fun x => Oid.eqb (q_id x) o) (questions w) with
      | Some q => (Ok tt, add_log (post_of u (grade_message q ans)) w1)
      | None => (Ok tt, w1)
      end.
Proof.
  intros Hp E1 E2 Ho Hb.
  destruct (get_question_by_id_reachable _ _ _ Ho Hb) as (w1 & Hd & Hn & Hg).
  exists w1. split; [exact Hd|]. split; [exact Hn|].
  unfold handle_postback. rewrite Hp. fold (parts_of s).
  unfold bind, py_index. rewrite E1. unfold ret at 1. rewrite E2.
  unfold ret at 1. rewrite Hg.
  destruct (find _ (questions w)); reflexivity.
Qed.

(** C5. An ANSWER postback whose id part names no stored question (it is
    missing, it is no ObjectId, or no question has that id) sends nothing:
    the log and the documents are as before.  When the payload has its
    three parts, the id is an ObjectId and the store is reachable, the
    handler returns normally: the postback is dropped in silence. *)
Theorem unknown_question_sends_nothing (u : json) (s : string) (w : world) :
  PyStr.startswith s "ANSWER_" = true ->
  (forall qid q, nth_error (parts_of s) 1 = Some qid ->
                 In q (questions w) -> Oid.of_str qid <> Some (q_id q)) ->
  let w' := snd (handle_postback u (JStr s) w) in
  log w' = log w /\ users w' = users w /\ questions w' = questions w /\
  (forall qid ans o,
     nth_error (parts_of s) 1 = Some qid ->
     nth_error (parts_of s) 2 = Some ans ->
     Oid.of_str qid = Some o -> store_budget w <> Some 0 ->
     fst (handle_postback u (JStr s) w) = Ok tt).
Proof.
  intros Hp Habsent w'.
  destruct (handle_postback u (JStr s) w) as [r w2] eqn:Hh. subst w'.
  simpl.
  destruct (handle_postback_answer_inv _ _ _ _ _ Hp Hh) as (Hq & Hu & Hl).
  assert (forall qid o, nth_error (parts_of s) 1 = Some qid ->
            Oid.of_str qid = Some o ->
            find (fun x => Oid.eqb (q_id x) o) (questions w) = None) as Hnone.
  { intros qid o E1 Ho.
    destruct (find _ (questions w)) as [q|] eqn:Ef; [|reflexivity].
    apply find_some in Ef as [Hin Heq]. apply oid_eqb_eq in Heq.
    exfalso. apply (Habsent qid q E1 Hin). congruence. }
  repeat split; auto.
  - destruct Hl as [Hl | (qid & ans & o & q & E1 & _ & Ho & Ef & _)];
      [exact Hl|].
    rewrite (Hnone _ _ E1 Ho) in Ef. discriminate.
  - intros qid ans o E1 E2 Ho Hb.
    destruct (handle_postback_answer_reachable u _ _ _ _ w Hp E1 E2 Ho Hb)
      as (w1 & _ & _ & Hh').
    rewrite (Hnone _ _ E1 Ho), Hh in Hh'. congruence.
Qed.

(** C6. Whatever ANSWER payload the client submits, the handler either
    sends nothing or sends one reply whose only button is "Next Question"
    with payload "NEXT_" followed by the exam name stored in the document
    of the question that the payload's id part names; the letter and every
    other part of the payload have no say in it. *)
Theorem next_button_carries_stored_exam (u : json) (s : string) (w : world) :
  PyStr.startswith s "ANSWER_" = true ->
  let w' := snd (handle_postback u (JStr s) w) in
  log w' = log w \/
  exists qid q m,
    nth_error (parts_of s) 1 = Some qid /\
    Oid.of_str qid = Some (q_id q) /\
    In q (questions w) /\
    log w' = log w ++ [post_of u m] /\
    m_quick_replies m
    = Some [ {| b_type := "postback"; b_title := "Next Question";
                b_payload := "NEXT_" +++ q_exam_name q |} ].
Proof.
  intros Hp w'.
  destruct (handle_postback u (JStr s) w) as [r w2] eqn:Hh. subst w'.
  simpl.
  destruct (handle_postback_answer_inv _ _ _ _ _ Hp Hh)
    as (_ & _ & [Hl | (qid & ans & o & q & E1 & _ & Ho & Ef & _ & Hl)]);
    [left; exact Hl|].
  right. apply find_some in Ef as [Hin Heq]. apply oid_eqb_eq in Heq.
  exists qid, q, (grade_message q ans). subst o. auto.
Qed.

(** ** Exact comparison of the submitted letter *)

Lemma says_correct_reply (q : question) (ans : string) :
  says_correct (grade_message q ans) = String.eqb ans (q_correct_option q).
Proof.
  unfold says_correct, grade_message, m_text, reply_text, PyStr.startswith.
  destruct (String.eqb ans (q_correct_option q)).
  - apply prefix_app.
  - reflexivity.
Qed.

(** C2, as the code has it. The grader compares the submitted letter with
    the stored correct letter as strings, case included: for an ANSWER
    postback that names a stored question (the store reachable), the one
    reply sent shows Correct exactly when the submitted letter equals the
    stored [correct_option]; two submissions for the same question get the
    same verdict exactly when both or neither equal the stored letter. *)
Theorem grading_compares_exactly (u : json) (s qid ans : string)
    (o : Oid.ObjectId) (q : question) (w : world) :
  PyStr.startswith s "ANSWER_" = true ->
  nth_error (parts_of s) 1 = Some qid ->
  nth_error (parts_of s) 2 = Some ans ->
  Oid.of_str qid = Some o ->
  find (fun x => Oid.eqb (q_id x) o) (questions w) = Some q ->
  store_budget w <> Some 0 ->
  (exists w1, same_data w w1 /\
     handle_postback u (JStr s) w
     = (Ok tt, add_log (post_of u (grade_message q ans)) w1)) /\
  (says_correct (grade_message q ans) = true <-> ans = q_correct_option q) /\
  (forall ans',
     says_correct (grade_message q ans) = says_correct (grade_message q ans')
     <-> (ans = q_correct_option q <-> ans' = q_correct_option q)).
Proof.
  intros Hp E1 E2 Ho Ef Hb. split; [|split].
  - destruct (handle_postback_answer_reachable u _ _ _ _ w Hp E1 E2 Ho Hb)
      as (w1 & Hd & _ & Hh).
    rewrite Ef in Hh. exists w1. auto.
  - rewrite says_correct_reply. apply String.eqb_eq.
  - intros ans'. rewrite !says_correct_reply.
    destruct (String.eqb_spec ans (q_correct_option q)) as [H1|H1];
      destruct (String.eqb_spec ans' (q_correct_option q)) as [H2|H2];
      split; intros H; try reflexivity; try discriminate; try tauto.
Qed.

(** ** The answer buttons and the way back to the store *)

Lemma find_unique (qs : list question) (q : question) :
  NoDup (map q_id qs) -> In q qs ->
  find (fun x => Oid.eqb (q_id x) (q_id q)) qs = Some q.
Proof.
  induction qs as [|x qs IH]; intros Hnd Hin; [destruct Hin|].
  simpl in *. inversion Hnd as [|? ? Hx Hnd']; subst.
  destruct Hin as [-> | Hin].
  - rewrite oid_eqb_refl. reflexivity.
  - destruct (Oid.eqb (q_id x) (q_id q)) eqn:E; [|auto].
    apply oid_eqb_eq in E. exfalso. apply Hx. rewrite E.
    apply in_map. exact Hin.
Qed.

Lemma answer_button_decodes (title : string) (o : Oid.ObjectId)
    (letter : string) :
  In letter letters ->
  PyStr.startswith (b_payload (answer_button title (Oid.to_str o) letter))
    "ANSWER_" = true /\
  parts_of (b_payload (answer_button title (Oid.to_str o) letter))
  = ["ANSWER"; Oid.to_str o; letter].
Proof.
  intros Hin. split.
  - unfold PyStr.startswith, answer_button, b_payload.
    apply prefix_app.
  - unfold parts_of.
    change (b_payload (answer_button title (Oid.to_str o) letter))
      with (b_payload (answer_button "X" (Oid.to_str o) letter)).
    apply split_answer_payload.
    destruct Hin as [<- | [<- | [<- | [<- | []]]]]; reflexivity.
Qed.

(** C8. The reply that serves a question carries exactly four buttons,
    titled A to D, one per option letter a to d.  Each payload starts with
    the answer marker, and the grader's split of it gives back the string
    of the served question's id as part 1 and the letter as part 2; looked
    up in a store holding the same questions, that id string finds the
    served question itself, and the postback is graded against it with
    that letter.  (Ids are store-assigned and unique, as the store makes
    them; the store is reachable.) *)
Theorem answer_buttons_round_trip (u : json) (e : string) (w w1 : world)
    (q : question) :
  fetch_unseen_question u e w = (Ok (Some q), w1) ->
  store_budget w1 <> Some 0 ->
  Oid.assigned (q_id q) ->
  NoDup (map q_id (questions w)) ->
  let w' := snd (handle_new_question_request u e w) in
  exists m bs,
    log w' = log w ++ [Push u (Oid.to_str (q_id q)); post_of u m] /\
    m_quick_replies m = Some bs /\
    List.length bs = 4 /\
    map b_title bs = ["A"; "B"; "C"; "D"] /\
    Forall2
      (fun b letter =>
         PyStr.startswith (b_payload b) "ANSWER_" = true /\
         nth_error (parts_of (b_payload b)) 1 = Some (Oid.to_str (q_id q)) /\
         nth_error (parts_of (b_payload b)) 2 = Some letter /\
         Oid.of_str (Oid.to_str (q_id q)) = Some (q_id q) /\
         forall v w2,
           questions w2 = questions w -> store_budget w2 = None ->
           get_question_by_id (Oid.to_str (q_id q)) w2 = (Ok (Some q), w2) /\
           handle_postback v (JStr (b_payload b)) w2
           = (Ok tt, add_log (post_of v (grade_message q letter)) w2))
      bs letters.
Proof.
  intros Hf Hb Ha Hnd w'.
  destruct (handle_new_question_request_served _ _ _ _ _ Hf Hb)
    as (w2 & Hh & _ & _ & Hl & _).
  subst w'. rewrite Hh. simpl.
  destruct (fetched_not_seen _ _ _ _ _ Hf) as (Hin & _).
  pose proof (of_str_to_str _ Ha) as Hrt.
  eexists. eexists. split; [exact Hl|]. split; [reflexivity|].
  split; [reflexivity|]. split; [reflexivity|].
  assert (forall title letter, In letter letters ->
    let b := answer_button title (Oid.to_str (q_id q)) letter in
    PyStr.startswith (b_payload b) "ANSWER_" = true /\
    nth_error (parts_of (b_payload b)) 1 = Some (Oid.to_str (q_id q)) /\
    nth_error (parts_of (b_payload b)) 2 = Some letter /\
    Oid.of_str (Oid.to_str (q_id q)) = Some (q_id q) /\
    forall v w3,
      questions w3 = questions w -> store_budget w3 = None ->
      get_question_by_id (Oid.to_str (q_id q)) w3 = (Ok (Some q), w3) /\
      handle_postback v (JStr (b_payload b)) w3
      = (Ok tt, add_log (post_of v (grade_message q letter)) w3)) as Hone.
  { intros title letter Hlet b. subst b.
    destruct (answer_button_decodes title (q_id q) letter Hlet) as [Hp Hparts].
    rewrite Hparts. repeat split; auto.
    - assert (store_budget w3 <> Some 0) as Hb3 by congruence.
      destruct (get_question_by_id_reachable _ _ w3 Hrt Hb3)
        as (w4 & _ & Hsame & Hg).
      rewrite Hg, (Hsame H0), H. rewrite (find_unique _ _ Hnd Hin).
      reflexivity.
    - assert (store_budget w3 <> Some 0) as Hb3 by congruence.
      assert (nth_error
                (parts_of (b_payload
                   (answer_button title (Oid.to_str (q_id q)) letter))) 1
              = Some (Oid.to_str (q_id q))) as E1
        by (rewrite Hparts; reflexivity).
      assert (nth_error
                (parts_of (b_payload
                   (answer_button title (Oid.to_str (q_id q)) letter))) 2
              = Some letter) as E2
        by (rewrite Hparts; reflexivity).
      destruct (handle_postback_answer_reachable v _ _ _ _ w3 Hp E1 E2 Hrt Hb3)
        as (w4 & _ & Hsame & Hh').
      rewrite Hh', (Hsame H0), H, (find_unique _ _ Hnd Hin). reflexivity. }
  unfold letters.
  repeat (constructor; [apply Hone; unfold letters; simpl; tauto|]).
  constructor.
Qed.

(** ** The verification handshake *)

Lemma opt_str_eqb_eq (a b : option string) : opt_str_eqb a b = true <-> a = b.
Proof.
  destruct a as [x|], b as [y|]; simpl; split; try congruence;
    try discriminate.
  - intros H. apply String.eqb_eq in H. congruence.
  - intros H. inversion H. apply String.eqb_refl.
Qed.

(** C7. On a verification GET, when the verify token of the query equals
    the configured secret the handler returns the challenge of the query,
    and when it differs the handler returns the rejection with status 403,
    whatever the challenge is; nothing is sent or stored either way. *)
Theorem verification_handshake (secret : option string)
    (a : list (string * string)) (b : body) (w : world) :
  let r := {| method := GET; args := a; req_body := b |} in
  (args_get "hub.verify_token" a = secret ->
     webhook secret r w = (Ok (Body (args_get "hub.challenge" a)), w)) /\
  (args_get "hub.verify_token" a <> secret ->
     webhook secret r w
     = (Ok (BodyStatus "Verification token mismatch" 403), w)).
Proof.
  intros r. unfold webhook. simpl. split; intros H.
  - apply opt_str_eqb_eq in H. rewrite H. reflexivity.
  - destruct (opt_str_eqb _ secret) eqn:E; [|reflexivity].
    apply opt_str_eqb_eq in E. contradiction.
Qed.

(** ** Classification of text messages *)

Lemma lookup_some_nonempty (k : string) (items : list (string * json))
    (v : json) :
  lookup k items = Some v -> truthy (JObj items) = true.
Proof. destruct items; [discriminate | reflexivity]. Qed.

Lemma truthy_nonempty_str (t : string) : t <> "" -> truthy (JStr t) = true.
Proof.
  intros H. simpl. destruct (String.eqb_spec t ""); [contradiction|].
  reflexivity.
Qed.

(** A text event is dispatched on its upper-cased text alone. *)
Lemma handle_event_text (items sender m : list (string * json)) (sid : json)
    (t : string) (w : world) :
  lookup "sender" items = Some (JObj sender) ->
  lookup "id" sender = Some sid ->
  lookup "message" items = Some (JObj m) ->
  lookup "text" m = Some (JStr t) ->
  t <> "" ->
  handle_event (JObj items) w
  = match exam_of_text (str_upper t) with
    | Some exam_name => handle_new_question_request sid exam_name w
    | None =>
        send_message sid
          {| m_text := unknown_command_text; m_quick_replies := None |} w
    end.
Proof.
  intros Hs Hid Hm Ht Hne.
  pose proof (lookup_some_nonempty _ _ _ Ht) as Hm1.
  pose proof (truthy_nonempty_str _ Hne) as Ht1.
  unfold handle_event, bind, py_getitem, py_get, py_upper, ret.
  repeat first [ rewrite Hs | rewrite Hid | rewrite Hm | rewrite Ht
               | rewrite Hm1 | rewrite Ht1 | progress cbv beta iota ].
  destruct (exam_of_text (str_upper t)); reflexivity.
Qed.


(** ** Bodies of an unexpected shape *)





(** ** Store failures *)

Lemma handle_new_question_request_store_error (u : json) (e : string)
    (w w' : world) :
  handle_new_question_request u e w = (Raise StoreError, w') ->
  same_data w w' /\ store_budget w' = Some 0.
Proof.
  intros Hh.
  destruct (fetch_unseen_question u e w) as [[[q|]|x] w1] eqn:Hf;
    pose proof (fetch_unseen_question_inv _ _ _ _ _ Hf) as (Hd & _ & Hr).
  - assert (store_budget w1 = Some 0 \/ store_budget w1 <> Some 0)
      as [Hb|Hb]
      by (destruct (store_budget w1) as [[|n]|];
          [left; reflexivity | right; discriminate | right; discriminate]).
    + rewrite (handle_new_question_request_mark_fails _ _ _ _ _ Hf Hb) in Hh.
      inversion Hh; subst. auto.
    + destruct (handle_new_question_request_served _ _ _ _ _ Hf Hb)
        as (w2 & Hh2 & _).
      rewrite Hh2 in Hh. discriminate.
  - rewrite (handle_new_question_request_exhausted _ _ _ _ Hf) in Hh.
    discriminate.
  - rewrite (handle_new_question_request_raises _ _ _ _ _ Hf) in Hh.
    inversion Hh; subst. auto.
Qed.

(** A delivery runs the inner loop over its events and acknowledges when
    the loop comes to its end. *)
Lemma webhook_delivery (secret : option string) (events : list json)
    (w : world) :
  webhook secret (delivery events) w
  = match for_each handle_event events w with
    | (Ok _, w') => (Ok (BodyStatus "OK" 200), w')
    | (Raise x, w') => (Raise x, w')
    end.
Proof.
  unfold webhook, delivery, get_json, bind, py_get, py_iter, ret. simpl.
  unfold bind, ret.
  destruct (for_each handle_event events w) as [[[]|x] w']; reflexivity.
Qed.

Lemma fetch_unseen_question_unreachable (u : json) (e : string) (w : world) :
  store_budget w = Some 0 ->
  fetch_unseen_question u e w = (Raise StoreError, w).
Proof.
  intros Hb. unfold fetch_unseen_question, db_users_find_one, bind.
  rewrite (store_op_down _ Hb). reflexivity.
Qed.

Lemma parse_all (l : list string) :
  (forall s, In s l -> Oid.of_str s <> None) ->
  exists os, Forall2 (fun s o => Oid.of_str s = Some o) l os.
Proof.
  induction l as [|s l IH]; intros H; [exists []; constructor|].
  destruct IH as [os Hos]; [intros s' Hs'; apply H; right; exact Hs'|].
  destruct (Oid.of_str s) as [o|] eqn:Es.
  - exists (o :: os). constructor; assumption.
  - exfalso. apply (H s); [left; reflexivity | exact Es].
Qed.

Lemma object_ids_total (l : list string) (os : list Oid.ObjectId) (w : world) :
  Forall2 (fun s o => Oid.of_str s = Some o) l os ->
  object_ids l w = (Ok os, w).
Proof.
  induction 1 as [|s o l os Hs _ IH]; simpl; [reflexivity|].
  unfold bind, ObjectId. rewrite Hs. unfold ret at 1. rewrite IH.
  reflexivity.
Qed.

(** The store answers [find_one] and is gone at [aggregate]. *)
Lemma fetch_unseen_question_aggregate_fails (u : json) (e : string)
    (w : world) :
  store_budget w = Some 1 ->
  (forall s, In s (seen_ids_of (users w) u) -> Oid.of_str s <> None) ->
  fetch_unseen_question u e w = (Raise StoreError, set_budget (Some 0) w).
Proof.
  intros Hb Hp. destruct (parse_all _ Hp) as [os Hos].
  unfold fetch_unseen_question, db_users_find_one.
  unfold bind at 1. unfold bind at 1. unfold store_op at 1. rewrite Hb.
  cbv beta iota. cbn [fst snd users set_budget].
  fold (seen_ids_of (users w) u).
  unfold bind at 1.
  rewrite (object_ids_total _ os (set_budget (Some 0) w) Hos).
  unfold bind at 1. unfold db_questions_aggregate. unfold bind at 1.
  rewrite store_op_down by reflexivity. reflexivity.
Qed.

(** C4, as the code has it. A store failure during question selection or
    seen-marking is not caught.  Whichever store operation fails, the
    [find_one] on the users or the [aggregate] on the questions during the
    selection, or the [update_one] of the seen mark after a question was
    selected, [handle_new_question_request] raises the store's exception;
    and whenever it does, for a text message that asks for that exam the
    exception leaves the event dispatch and the webhook handler, which
    returns no ("OK", 200) and does not reach the later events of the
    delivery, no reply is sent and no seen mark is written for that
    request. *)
Theorem store_failure_propagates (secret : option string) (sid : json)
    (t e : string) (rest : list json) (w : world) :
  t <> "" ->
  exam_of_text (str_upper t) = Some e ->
  let w' := snd (handle_new_question_request sid e w) in
  (store_budget w = Some 0 ->
     fst (handle_new_question_request sid e w) = Raise StoreError) /\
  (store_budget w = Some 1 ->
   (forall s, In s (seen_ids_of (users w) sid) -> Oid.of_str s <> None) ->
     fst (handle_new_question_request sid e w) = Raise StoreError) /\
  (forall q w1,
     fetch_unseen_question sid e w = (Ok (Some q), w1) ->
     store_budget w1 = Some 0 ->
     fst (handle_new_question_request sid e w) = Raise StoreError) /\
  (fst (handle_new_question_request sid e w) = Raise StoreError ->
     log w' = log w /\ users w' = users w /\ store_budget w' = Some 0 /\
     handle_event (text_event sid t) w = (Raise StoreError, w') /\
     webhook secret (delivery (text_event sid t :: rest)) w
     = (Raise StoreError, w')).
Proof.
  intros Hne He w'. split; [|split; [|split]].
  - intros Hb.
    rewrite (handle_new_question_request_raises _ _ _ _ _
               (fetch_unseen_question_unreachable sid e w Hb)).
    reflexivity.
  - intros Hb Hp.
    rewrite (handle_new_question_request_raises _ _ _ _ _
               (fetch_unseen_question_aggregate_fails sid e w Hb Hp)).
    reflexivity.
  - intros q w1 Hf Hb.
    rewrite (handle_new_question_request_mark_fails _ _ _ _ _ Hf Hb).
    reflexivity.
  - intros Hr.
    destruct (handle_new_question_request sid e w) as [r w2] eqn:Hh.
    simpl in Hr. subst r w'. simpl.
    destruct (handle_new_question_request_store_error _ _ _ _ Hh)
      as ((_ & Hu & Hl) & Hb).
    assert (handle_event (text_event sid t) w = (Raise StoreError, w2))
      as Hev.
    { unfold text_event.
      rewrite (handle_event_text
                 [("sender", JObj [("id", sid)]);
                  ("message", JObj [("text", JStr t)])]
                 [("id", sid)] [("text", JStr t)] sid t w
                 eq_refl eq_refl eq_refl eq_refl Hne).
      rewrite He. exact Hh. }
    repeat split; auto.
    rewrite webhook_delivery. cbn [for_each]. unfold bind at 1.
    rewrite Hev. reflexivity.
Qed.

(** ** How handlers change the world *)

Lemma evolves_refl (w : world) : evolves w w.
Proof.
  unfold evolves. split; [reflexivity|]. split; [intros v; apply incl_refl|].
  split; [intros v s Hs; left; exact Hs|]. split; auto.
Qed.

Lemma evolves_trans (w1 w2 w3 : world) :
  evolves w1 w2 -> evolves w2 w3 -> evolves w1 w3.
Proof.
  intros (Q1 & I1 & O1 & B1 & S1) (Q2 & I2 & O2 & B2 & S2).
  unfold evolves. split; [congruence|].
  split; [intros v; eapply incl_tran; [apply I1 | apply I2]|].
  split; [|split; auto].
  intros v s Hs. destruct (O2 v s Hs) as [Hs' | (q & Hq & ->)].
  - exact (O1 v s Hs').
  - right. exists q. rewrite <- Q1. auto.
Qed.

Lemma same_data_evolves (w w' : world) :
  same_data w w' -> (store_budget w = None -> store_budget w' = None) ->
  evolves w w'.
Proof.
  intros (Hq & Hu & Hl) Hb. unfold evolves, served_once.
  rewrite Hq, Hu, Hl. split; [reflexivity|].
  split; [intros v; apply incl_refl|].
  split; [intros v s Hs; left; exact Hs|]. split; auto.
Qed.

Lemma evolves_serve (rq : json * string) (w : world) :
  evolves w (serve rq w).
Proof.
  destruct (serve_frame rq w) as (Hq & Hi & Hb).
  unfold evolves. split; [exact Hq|]. split; [exact Hi|].
  split; [intros v s; apply serve_seen_origin|].
  split; [exact Hb | apply served_once_serve].
Qed.

Lemma keeps_ret {A} (a : A) : keeps (ret a).
Proof. intros w. apply evolves_refl. Qed.

Lemma keeps_raise {A} (x : exn) : keeps (@raise A x).
Proof. intros w. apply evolves_refl. Qed.

Lemma keeps_bind {A B} (c : M A) (k : A -> M B) :
  keeps c -> (forall a, keeps (k a)) -> keeps (bind c k).
Proof.
  intros Hc Hk w. unfold bind. specialize (Hc w).
  destruct (c w) as [[a|x] w1]; simpl in Hc.
  - eapply evolves_trans; [exact Hc | apply Hk].
  - exact Hc.
Qed.

Lemma keeps_for_each {A} (body : A -> M unit) (l : list A) :
  (forall a, keeps (body a)) -> keeps (for_each body l).
Proof.
  intros Hb. induction l as [|a l IH]; simpl.
  - apply keeps_ret.
  - apply keeps_bind; auto.
Qed.

Lemma keeps_py_get (v : json) (k : string) (d : json) : keeps (py_get v k d).
Proof. destruct v; simpl; auto using @keeps_ret, @keeps_raise. Qed.

Lemma keeps_py_getitem (v : json) (k : string) : keeps (py_getitem v k).
Proof.
  destruct v; simpl; auto using @keeps_raise.
  destruct (lookup k items); auto using @keeps_ret, @keeps_raise.
Qed.

Lemma keeps_py_iter (v : json) : keeps (py_iter v).
Proof. destruct v; simpl; auto using @keeps_ret, @keeps_raise. Qed.

Lemma keeps_py_upper (v : json) : keeps (py_upper v).
Proof. destruct v; simpl; auto using @keeps_ret, @keeps_raise. Qed.

Lemma keeps_py_index (parts : list string) (i : nat) :
  keeps (py_index parts i).
Proof.
  unfold py_index. destruct (nth_error parts i);
    auto using @keeps_ret, @keeps_raise.
Qed.

Lemma keeps_get_question_by_id (s : string) : keeps (get_question_by_id s).
Proof.
  intros w. destruct (get_question_by_id s w) as [r w'] eqn:Hg. simpl.
  destruct (get_question_by_id_inv _ _ _ _ Hg) as [Hd Hr].
  apply same_data_evolves; [exact Hd|].
  intros Hb. unfold get_question_by_id, bind, ObjectId in Hg.
  destruct (Oid.of_str s).
  - unfold ret at 1 in Hg. unfold db_questions_find_one, bind in Hg.
    rewrite (store_op_up _ Hb) in Hg. inversion Hg; subst. exact Hb.
  - inversion Hg; subst. exact Hb.
Qed.

Lemma keeps_send_message (u : json) (m : message) :
  served_id m = None -> keeps (send_message u m).
Proof.
  intros Hm w. unfold send_message, evolves, served_once. simpl.
  split; [reflexivity|]. split; [intros v; apply incl_refl|].
  split; [intros v s Hs; left; exact Hs|]. split; [auto|].
  intros Hs v. rewrite served_to_app. simpl. rewrite Hm.
  destruct (json_eqb u v); rewrite app_nil_r; apply Hs.
Qed.

Lemma keeps_handle_new_question_request (u : json) (e : string) :
  keeps (handle_new_question_request u e).
Proof. intros w. exact (evolves_serve (u, e) w). Qed.

Lemma keeps_handle_postback (u payload : json) :
  keeps (handle_postback u payload).
Proof.
  destruct payload as [ | | |s| | ]; simpl; try apply keeps_raise.
  destruct (PyStr.startswith s "ANSWER_").
  - apply keeps_bind; [apply keeps_py_index|]. intros qid.
    apply keeps_bind; [apply keeps_py_index|]. intros ans.
    apply keeps_bind; [apply keeps_get_question_by_id|]. intros [q|].
    + apply keeps_send_message. reflexivity.
    + apply keeps_ret.
  - destruct (PyStr.startswith s "NEXT_"); [|apply keeps_ret].
    apply keeps_bind; [apply keeps_py_index|]. intros e.
    apply keeps_handle_new_question_request.
Qed.

Lemma keeps_handle_event (event : json) : keeps (handle_event event).
Proof.
  unfold handle_event.
  apply keeps_bind; [apply keeps_py_getitem|]. intros sender.
  apply keeps_bind; [apply keeps_py_getitem|]. intros sid.
  apply keeps_bind; [apply keeps_py_get|]. intros message.
  apply keeps_bind.
  { destruct (truthy message); [|apply keeps_ret].
    apply keeps_bind; [apply keeps_py_getitem|]. intros m.
    apply keeps_py_get. }
  intros text. destruct (truthy text).
  - apply keeps_bind; [apply keeps_py_getitem|]. intros m.
    apply keeps_bind; [apply keeps_py_getitem|]. intros t.
    apply keeps_bind; [apply keeps_py_upper|]. intros up.
    destruct (exam_of_text up).
    + apply keeps_handle_new_question_request.
    + apply keeps_send_message. reflexivity.
  - apply keeps_bind; [apply keeps_py_get|]. intros postback.
    destruct (truthy postback); [|apply keeps_ret].
    apply keeps_bind; [apply keeps_py_getitem|]. intros p.
    apply keeps_bind; [apply keeps_py_getitem|]. intros payload.
    apply keeps_handle_postback.
Qed.

Lemma keeps_webhook (secret : option string) (r : request) :
  keeps (webhook secret r).
Proof.
  unfold webhook. destruct (method r).
  - destruct (opt_str_eqb _ secret); apply keeps_ret.
  - apply keeps_bind.
    { unfold get_json. destruct (req_body r);
        auto using @keeps_ret, @keeps_raise. }
    intros data. apply keeps_bind; [apply keeps_py_get|]. intros object.
    apply keeps_bind; [|intros; apply keeps_ret].
    destruct (py_eq_str object "instagram"); [|apply keeps_ret].
    apply keeps_bind; [apply keeps_py_get|]. intros entries.
    apply keeps_bind; [apply keeps_py_iter|]. intros es.
    apply keeps_for_each. intros entry.
    apply keeps_bind; [apply keeps_py_get|]. intros events.
    apply keeps_bind; [apply keeps_py_iter|]. intros evs.
    apply keeps_for_each. apply keeps_handle_event.
  - apply keeps_ret.
Qed.

Lemma evolves_run (secret : option string) (reqs : list request) (w : world) :
  evolves w (run_requests secret reqs w).
Proof.
  unfold run_requests. revert w.
  induction reqs as [|r reqs IH]; intros w; simpl; [apply evolves_refl|].
  eapply evolves_trans; [apply keeps_webhook | apply IH].
Qed.

Lemma exhausted_evolves (w w' : world) (u : json) (e : string) :
  store_assigned w -> evolves w w' -> exhausted w u e -> exhausted w' u e.
Proof.
  intros Hsa (Hq & Hincl & Horig & _ & _) [Hparse Hall]. split.
  - intros s Hs. destruct (Horig _ _ Hs) as [Hold | (q & Hin & ->)].
    + exact (Hparse s Hold).
    + unfold store_assigned in Hsa. rewrite Forall_forall in Hsa.
      rewrite (of_str_to_str _ (Hsa q Hin)). discriminate.
  - rewrite Hq. intros q Hin He.
    destruct (Hall q Hin He) as (s & Hs & Hp).
    exists s. split; [apply Hincl; exact Hs | exact Hp].
Qed.

(** ** Serving never repeats, and exhaustion is final *)

(** C1. Along any run of webhook requests (any senders, texts and
    postbacks) started with an empty log, the question ids served to a user
    are pairwise distinct and each is in the user's seen list; a question
    the selection returns is of the requested exam and its id is not in the
    seen list; and once the selection finds nothing left for a user and an
    exam (the store reachable, its ids store-assigned), every later request
    of that user for that exam is answered with the completion message,
    whatever requests come in between. *)
Theorem never_served_twice (secret : option string)
    (qs : list question) (us : list user_doc) (b : option nat)
    (r : list nat) (reqs : list request) :
  let w := run_requests secret reqs
             {| questions := qs; users := us; store_budget := b;
                rand := r; log := [] |} in
  (forall u,
     NoDup (served_to u (log w)) /\
     incl (served_to u (log w)) (seen_ids_of (users w) u)) /\
  (forall u e q w1,
     fetch_unseen_question u e w = (Ok (Some q), w1) ->
     q_exam_name q = e /\
     ~ In (Oid.to_str (q_id q)) (seen_ids_of (users w) u)) /\
  (forall u e w1,
     fetch_unseen_question u e w = (Ok None, w1) ->
     store_budget w = None -> store_assigned w ->
     forall more,
       let w2 := run_requests secret more w in
       exists w3,
         same_data w2 w3 /\
         handle_new_question_request u e w2
         = (Ok tt, add_log (post_of u (completion_message e)) w3) /\
         forall t, t <> "" -> exam_of_text (str_upper t) = Some e ->
           webhook secret (delivery [text_event u t]) w2
           = (Ok (BodyStatus "OK" 200),
              add_log (post_of u (completion_message e)) w3)).
Proof.
  intros w. split; [|split].
  - assert (served_once {| questions := qs; users := us; store_budget := b;
                           rand := r; log := [] |}) as H0.
    { intros u. cbn [log served_to]. split; [constructor | intros s []]. }
    destruct (evolves_run secret reqs
                {| questions := qs; users := us; store_budget := b;
                   rand := r; log := [] |}) as (_ & _ & _ & _ & Hs).
    exact (Hs H0).
  - intros u e q w1 Hf.
    destruct (fetched_not_seen _ _ _ _ _ Hf) as (_ & He & Hn). auto.
  - intros u e w1 Hf Hb Hsa more w2.
    pose proof (fetch_none_exhausted _ _ _ _ Hf) as Hex.
    pose proof (evolves_run secret more w) as Hev. fold w2 in Hev.
    pose proof (exhausted_evolves _ _ _ _ Hsa Hev Hex) as Hex2.
    destruct Hev as (_ & _ & _ & Hb2 & _).
    destruct (exhausted_fetch u e _ (Hb2 Hb) Hex2) as (w3 & Hf3 & Hd).
    exists w3. split; [exact Hd|].
    pose proof (handle_new_question_request_exhausted _ _ _ _ Hf3) as Hh.
    split; [exact Hh|].
    intros t Hne He. rewrite webhook_delivery. cbn [for_each].
    unfold bind at 1. unfold text_event.
    rewrite (handle_event_text
               [("sender", JObj [("id", u)]);
                ("message", JObj [("text", JStr t)])]
               [("id", u)] [("text", JStr t)] u t w2
               eq_refl eq_refl eq_refl eq_refl Hne).
    rewrite He, Hh. reflexivity.
Qed.

(** ** Marking comes before sending *)

(** C9. When the selection returns a question, the handler first pushes
    its id onto the user's seen list and only then posts the question: the
    log grows by the push followed by the post, nothing else, and no answer
    is involved.  From then on the id is in the user's seen list, and
    whatever requests follow, the question answered or not, the selection
    never returns a question of that id to that user again.  (If the store
    refuses the push, the handler raises there and the question is not
    sent.) *)
Theorem seen_before_sent (u : json) (e : string) (w w1 : world)
    (q : question) :
  fetch_unseen_question u e w = (Ok (Some q), w1) ->
  let w' := snd (handle_new_question_request u e w) in
  (store_budget w1 <> Some 0 ->
     fst (handle_new_question_request u e w) = Ok tt /\
     log w' = log w ++ [Push u (Oid.to_str (q_id q));
                        post_of u (question_message q)] /\
     In (Oid.to_str (q_id q)) (seen_ids_of (users w') u) /\
     forall secret reqs e2 q2 w3,
       fetch_unseen_question u e2 (run_requests secret reqs w')
       = (Ok (Some q2), w3) ->
       q_id q2 <> q_id q) /\
  (store_budget w1 = Some 0 ->
     fst (handle_new_question_request u e w) = Raise StoreError /\
     log w' = log w).
Proof.
  intros Hf w'. split; intros Hb.
  - destruct (handle_new_question_request_served _ _ _ _ _ Hf Hb)
      as (w2 & Hh & _ & Hu & Hl & _).
    subst w'. rewrite Hh. simpl.
    assert (In (Oid.to_str (q_id q)) (seen_ids_of (users w2) u)) as Hin.
    { rewrite Hu, seen_ids_of_push_same. apply in_or_app. right. left.
      reflexivity. }
    repeat split; [exact Hl | exact Hin |].
    intros secret reqs e2 q2 w3 Hf2 Heq.
    destruct (fetched_not_seen _ _ _ _ _ Hf2) as (_ & _ & Hfresh).
    apply Hfresh. rewrite Heq.
    destruct (evolves_run secret reqs w2) as (_ & Hincl & _).
    apply Hincl. exact Hin.
  - subst w'.
    rewrite (handle_new_question_request_mark_fails _ _ _ _ _ Hf Hb).
    simpl. split; [reflexivity|].
    destruct (fetch_unseen_question_inv _ _ _ _ _ Hf) as ((_ & _ & Hl) & _).
    exact Hl.
Qed.

(** * Further properties of the handlers *)

(** ** What one event can do *)

Lemma affects_quiet (u : json) (w w' : world) :
  same_data w w' -> affects u w w'.
Proof. intros (Hq & Hu & Hl). split; [exact Hq | apply Quiet; assumption]. Qed.

Lemma affects_refl (u : json) (w : world) : affects u w w.
Proof. apply affects_quiet, same_data_refl. Qed.

Lemma affects_bind_pure {A B} (u : json) (c : M A) (k : A -> M B) (w : world) :
  pure c -> (forall a w0, affects u w0 (snd (k a w0))) ->
  affects u w (snd (bind c k w)).
Proof.
  intros Hc Hk. unfold bind. specialize (Hc w).
  destruct (c w) as [[a|x] w1]; simpl in Hc; subst w1.
  - apply Hk.
  - apply affects_refl.
Qed.

Lemma pure_py_get (v : json) (k : string) (d : json) : pure (py_get v k d).
Proof. intros w. destruct v; reflexivity. Qed.

Lemma pure_py_getitem (v : json) (k : string) : pure (py_getitem v k).
Proof.
  intros w. destruct v; try reflexivity. simpl.
  destruct (lookup k items); reflexivity.
Qed.

Lemma pure_py_iter (v : json) : pure (py_iter v).
Proof. intros w. destruct v; reflexivity. Qed.

Lemma pure_py_upper (v : json) : pure (py_upper v).
Proof. intros w. destruct v; reflexivity. Qed.

Lemma pure_py_index (parts : list string) (i : nat) : pure (py_index parts i).
Proof. intros w. unfold py_index. destruct (nth_error parts i); reflexivity. Qed.

Lemma pure_get_json (r : request) : pure (get_json r).
Proof. intros w. unfold get_json. destruct (req_body r); reflexivity. Qed.

Lemma pure_bind {A B} (c : M A) (k : A -> M B) :
  pure c -> (forall a, pure (k a)) -> pure (bind c k).
Proof.
  intros Hc Hk w. unfold bind. specialize (Hc w).
  destruct (c w) as [[a|x] w1]; simpl in Hc; subst w1; [apply Hk | reflexivity].
Qed.

Lemma handle_new_question_request_affects (u : json) (e : string)
    (w : world) :
  affects u w (snd (handle_new_question_request u e w)).
Proof.
  destruct (fetch_unseen_question u e w) as [[[q|]|x] w1] eqn:Hf;
    pose proof (fetch_unseen_question_inv _ _ _ _ _ Hf)
      as ((Hq & Hu & Hl) & _ & _).
  - assert (store_budget w1 = Some 0 \/ store_budget w1 <> Some 0)
      as [Hb|Hb]
      by (destruct (store_budget w1) as [[|n]|];
          [left; reflexivity | right; discriminate | right; discriminate]).
    + rewrite (handle_new_question_request_mark_fails _ _ _ _ _ Hf Hb).
      apply affects_quiet. repeat split; assumption.
    + destruct (handle_new_question_request_served _ _ _ _ _ Hf Hb)
        as (w' & -> & Hq' & Hu' & Hl' & _).
      destruct (fetched_not_seen _ _ _ _ _ Hf) as (Hin & _ & Hfresh).
      split; [exact Hq'|]. exact (Served u w w' q Hin Hfresh Hu' Hl').
  - rewrite (handle_new_question_request_exhausted _ _ _ _ Hf).
    split; [exact Hq|]. apply (Completed u w _ e); simpl; congruence.
  - rewrite (handle_new_question_request_raises _ _ _ _ _ Hf).
    apply affects_quiet. repeat split; assumption.
Qed.

Lemma handle_postback_affects (u payload : json) (w : world) :
  affects u w (snd (handle_postback u payload w)).
Proof.
  destruct payload as [ | | |s| | ]; try apply affects_refl.
  destruct (PyStr.startswith s "ANSWER_") eqn:Ea.
  - destruct (handle_postback u (JStr s) w) as [r w'] eqn:Hh.
    destruct (handle_postback_answer_inv _ _ _ _ _ Ea Hh)
      as (Hq & Hu & [Hl | (qid & ans & o & q & _ & _ & _ & Ef & _ & Hl)]).
    + apply affects_quiet. repeat split; assumption.
    + apply find_some in Ef as [Hin _].
      split; [exact Hq|]. exact (Graded u w w' q ans Hin Hu Hl).
  - unfold handle_postback. rewrite Ea.
    destruct (PyStr.startswith s "NEXT_"); [|apply affects_refl].
    apply affects_bind_pure; [apply pure_py_index|].
    intros e w0. apply handle_new_question_request_affects.
Qed.

Lemma send_help_affects (u : json) (w : world) :
  affects u w (snd (send_message u unknown_command_message w)).
Proof. split; [reflexivity|]. apply Helped; reflexivity. Qed.

(** An event whose sender id cannot be read changes nothing. *)
Lemma handle_event_no_sender (event : json) (w : world) :
  sender_of event = None -> snd (handle_event event w) = w.
Proof.
  unfold sender_of, handle_event, bind, py_getitem, ret, raise.
  destruct event as [ | | | | |items]; try reflexivity.
  destruct (lookup "sender" items) as [[ | | | | |sender]|]; try reflexivity.
  intros Hid. cbv beta iota. rewrite Hid. reflexivity.
Qed.

Lemma handle_event_affects (event sid : json) (w : world) :
  sender_of event = Some sid -> affects sid w (snd (handle_event event w)).
Proof.
  unfold sender_of.
  destruct event as [ | | | | |items]; try discriminate.
  destruct (lookup "sender" items) as [[ | | | | |sender]|] eqn:Hs;
    try discriminate.
  intros Hid. unfold handle_event.
  unfold bind at 1. unfold py_getitem at 1. rewrite Hs. unfold ret at 1.
  unfold bind at 1. unfold py_getitem at 1. rewrite Hid. unfold ret at 1.
  apply affects_bind_pure; [apply pure_py_get|]. intros message w0.
  apply affects_bind_pure.
  { destruct (truthy message); [|intros w1; reflexivity].
    apply pure_bind; [apply pure_py_getitem|]. intros m. apply pure_py_get. }
  intros text w1. destruct (truthy text).
  - apply affects_bind_pure; [apply pure_py_getitem|]. intros m w2.
    apply affects_bind_pure; [apply pure_py_getitem|]. intros t w3.
    apply affects_bind_pure; [apply pure_py_upper|]. intros up w4.
    destruct (exam_of_text up).
    + apply handle_new_question_request_affects.
    + apply send_help_affects.
  - apply affects_bind_pure; [apply pure_py_get|]. intros postback w2.
    destruct (truthy postback); [|apply affects_refl].
    apply affects_bind_pure; [apply pure_py_getitem|]. intros p w3.
    apply affects_bind_pure; [apply pure_py_getitem|]. intros payload w4.
    apply handle_postback_affects.
Qed.

(** X1. One event does at most one thing.  Handling an event leaves the
    questions alone; when the sender id cannot be read nothing changes at
    all; otherwise the documents and the log change in one of five ways:
    not at all, by the completion reply, by the push of a fresh stored
    question's id followed by that question's reply, by the grading reply
    for a stored question, or by the help reply, each reply addressed to
    the sender. *)
Theorem event_does_one_thing (event : json) (w : world) :
  let w' := snd (handle_event event w) in
  questions w' = questions w /\
  match sender_of event with
  | Some sid => outcome sid w w'
  | None => w' = w
  end.
Proof.
  intros w'. subst w'. destruct (sender_of event) as [sid|] eqn:Hs.
  - exact (handle_event_affects event sid w Hs).
  - rewrite (handle_event_no_sender event w Hs). auto.
Qed.

(** ** Other users are left alone *)

Lemma posts_app (l l' : list effect) : posts (l ++ l') = posts l ++ posts l'.
Proof.
  induction l as [|[v s|p] l IH]; simpl; [reflexivity | exact IH |].
  rewrite IH. reflexivity.
Qed.

Lemma posts_to_app (v : json) (l l' : list effect) :
  posts_to v (l ++ l') = posts_to v l ++ posts_to v l'.
Proof. unfold posts_to. rewrite posts_app. apply filter_app. Qed.

Lemma outcome_other_user (u v : json) (w w' : world) :
  u <> v -> outcome u w w' ->
  seen_ids_of (users w') v = seen_ids_of (users w) v /\
  posts_to v (log w') = posts_to v (log w).
Proof.
  intros Hne Ho. pose proof (json_eqb_neq _ _ Hne) as Hb.
  destruct Ho as [Hu Hl | e Hu Hl | q _ _ Hu Hl | q a _ Hu Hl | Hu Hl];
    rewrite Hu, Hl; rewrite ?posts_to_app; unfold posts_to; simpl;
    rewrite ?Hb; rewrite ?app_nil_r; auto.
  split; [|reflexivity]. apply seen_ids_of_push_other. exact Hne.
Qed.

(** X2. An event touches its sender only: when the sender id the event
    carries is a string, as the platform's are, then for every other user,
    of a string id as well, the seen list is as before and no message is
    posted to that user. *)
Theorem event_leaves_others_alone (event : json) (other : string)
    (w : world) :
  (forall sid, sender_of event = Some sid -> exists name, sid = JStr name) ->
  sender_of event <> Some (JStr other) ->
  let v := JStr other in
  let w' := snd (handle_event event w) in
  seen_ids_of (users w') v = seen_ids_of (users w) v /\
  posts_to v (log w') = posts_to v (log w).
Proof.
  intros _ Hne v w'. subst v w'.
  destruct (sender_of event) as [sid|] eqn:Hs.
  - destruct (handle_event_affects event sid w Hs) as [_ Ho].
    apply (outcome_other_user sid (JStr other)); [congruence | exact Ho].
  - rewrite (handle_event_no_sender event w Hs). auto.
Qed.

(** ** Runs of the webhook, event by event *)

Lemma reaches_trans (w1 w2 w3 : world) :
  reaches w1 w2 -> reaches w2 w3 -> reaches w1 w3.
Proof.
  intros H12 H23. induction H23 as [|u wa wb _ IH Ha]; [exact H12|].
  exact (reaches_step w1 u wa wb IH Ha).
Qed.

Lemma reaches_pure {A} (c : M A) (w : world) : pure c -> reaches w (snd (c w)).
Proof. intros Hc. rewrite (Hc w). apply reaches_here. Qed.

Lemma reaches_bind {A B} (c : M A) (k : A -> M B) (w : world) :
  (forall w0, reaches w0 (snd (c w0))) ->
  (forall a w0, reaches w0 (snd (k a w0))) ->
  reaches w (snd (bind c k w)).
Proof.
  intros Hc Hk. unfold bind. specialize (Hc w).
  destruct (c w) as [[a|x] w1]; simpl in Hc.
  - eapply reaches_trans; [exact Hc | apply Hk].
  - exact Hc.
Qed.

Lemma reaches_for_each {A} (body : A -> M unit) (l : list A) (w : world) :
  (forall a w0, reaches w0 (snd (body a w0))) ->
  reaches w (snd (for_each body l w)).
Proof.
  intros Hb. revert w. induction l as [|a l IH]; intros w; simpl.
  - apply reaches_here.
  - apply reaches_bind; auto.
Qed.

Lemma handle_event_reaches (event : json) (w : world) :
  reaches w (snd (handle_event event w)).
Proof.
  destruct (sender_of event) as [sid|] eqn:Hs.
  - exact (reaches_step w sid w _ (reaches_here w)
             (handle_event_affects event sid w Hs)).
  - rewrite (handle_event_no_sender event w Hs). apply reaches_here.
Qed.

Lemma webhook_reaches (secret : option string) (r : request) (w : world) :
  reaches w (snd (webhook secret r w)).
Proof.
  unfold webhook. destruct (method r).
  - destruct (opt_str_eqb _ secret); apply reaches_here.
  - apply reaches_bind;
      [intros w0; apply reaches_pure, pure_get_json|]. intros data w0.
    apply reaches_bind;
      [intros w1; apply reaches_pure, pure_py_get|]. intros object w1.
    apply reaches_bind; [|intros a w2; apply reaches_here]. intros w2.
    destruct (py_eq_str object "instagram"); [|apply reaches_here].
    apply reaches_bind;
      [intros w3; apply reaches_pure, pure_py_get|]. intros entries w3.
    apply reaches_bind;
      [intros w4; apply reaches_pure, pure_py_iter|]. intros es w4.
    apply reaches_for_each. intros entry w5.
    apply reaches_bind;
      [intros w6; apply reaches_pure, pure_py_get|]. intros events w6.
    apply reaches_bind;
      [intros w7; apply reaches_pure, pure_py_iter|]. intros evs w7.
    apply reaches_for_each. intros ev w8. apply handle_event_reaches.
  - apply reaches_here.
Qed.

Lemma run_requests_reaches (secret : option string) (reqs : list request)
    (w : world) :
  reaches w (run_requests secret reqs w).
Proof.
  unfold run_requests. revert w.
  induction reqs as [|r reqs IH]; intros w; simpl; [apply reaches_here|].
  eapply reaches_trans; [apply webhook_reaches | apply IH].
Qed.

Lemma reaches_questions (w w' : world) :
  reaches w w' -> questions w' = questions w.
Proof.
  induction 1 as [|u w1 w2 _ IH [Hq _]]; [reflexivity | congruence].
Qed.

(** An invariant kept by every single change is kept along a run. *)
Lemma reaches_invariant (I : world -> Prop) (w w' : world) :
  (forall u w1 w2, I w1 -> affects u w1 w2 -> I w2) ->
  I w -> reaches w w' -> I w'.
Proof.
  intros Hstep H0. induction 1 as [|u w1 w2 _ IH Ha]; [exact H0|].
  exact (Hstep u w1 w2 IH Ha).
Qed.

(** ** The bot's effects are its own *)

Lemma bot_effect_post (qs : list question) (u : json) (m : message) :
  bot_message qs m -> bot_effect qs (post_of u m).
Proof. intros H. split; [reflexivity | exact H]. Qed.

Lemma affects_bot_effects (u : json) (w1 w2 : world) :
  Forall (bot_effect (questions w1)) (log w1) -> affects u w1 w2 ->
  Forall (bot_effect (questions w2)) (log w2).
Proof.
  intros H [Hq Ho]. rewrite Hq.
  destruct Ho as [Hu Hl | e Hu Hl | q Hin _ Hu Hl | q a Hin Hu Hl | Hu Hl];
    rewrite Hl; try exact H; apply Forall_app; split; try exact H.
  - apply Forall_cons; [|apply Forall_nil]. apply bot_effect_post.
    right. left. exists e. reflexivity.
  - apply Forall_cons; [exists q; auto|].
    apply Forall_cons; [|apply Forall_nil]. apply bot_effect_post.
    left. exists q. auto.
  - apply Forall_cons; [|apply Forall_nil]. apply bot_effect_post.
    right. right. left. exists q, a. auto.
  - apply Forall_cons; [|apply Forall_nil]. apply bot_effect_post.
    right. right. right. reflexivity.
Qed.

Lemma run_bot_effects (secret : option string) (reqs : list request)
    (w : world) :
  Forall (bot_effect (questions w)) (log w) ->
  Forall (bot_effect (questions w)) (log (run_requests secret reqs w)).
Proof.
  intros H0.
  pose proof (run_requests_reaches secret reqs w) as Hr.
  rewrite <- (reaches_questions _ _ Hr).
  apply (reaches_invariant
           (fun w0 => Forall (bot_effect (questions w0)) (log w0)) w _);
    [exact affects_bot_effects | exact H0 | exact Hr].
Qed.

Lemma in_posts (p : api_payload) (l : list effect) :
  In p (posts l) -> In (Post p) l.
Proof.
  induction l as [|[v s|p'] l IH]; simpl; [tauto | auto |].
  intros [-> | H]; auto.
Qed.

Lemma bot_message_buttons (qs : list question) (m : message) :
  bot_message qs m ->
  match m_quick_replies m with
  | None => True
  | Some bs =>
      (List.length bs = 1 \/ List.length bs = 4) /\
      Forall (fun b => b_type b = "postback") bs
  end.
Proof.
  intros [(q & _ & ->) | [(e & ->) | [(q & a & _ & ->) | ->]]]; simpl;
    try exact I.
  - split; [right; reflexivity|].
    repeat (apply Forall_cons; [reflexivity|]). apply Forall_nil.
  - split; [left; reflexivity|].
    repeat (apply Forall_cons; [reflexivity|]). apply Forall_nil.
Qed.

(** X3. Whatever requests arrive, the bot posts only its own four kinds of
    message, each as a RESPONSE, and pushes only id strings of stored
    questions: a question reply and a grading reply are always about a
    question of the store, and a posted message carries no quick reply,
    or one, or four, every one of type postback. *)
Theorem only_own_messages (secret : option string)
    (qs : list question) (us : list user_doc) (b : option nat)
    (r : list nat) (reqs : list request) :
  let w := run_requests secret reqs
             {| questions := qs; users := us; store_budget := b;
                rand := r; log := [] |} in
  Forall (bot_effect qs) (log w) /\
  forall p, In p (posts (log w)) ->
    messaging_type p = "RESPONSE" /\
    match m_quick_replies (message_payload p) with
    | None => True
    | Some bs =>
        (List.length bs = 1 \/ List.length bs = 4) /\
        Forall (fun b => b_type b = "postback") bs
    end.
Proof.
  intros w.
  assert (Forall (bot_effect qs) (log w)) as H.
  { exact (run_bot_effects secret reqs
             {| questions := qs; users := us; store_budget := b;
                rand := r; log := [] |} (Forall_nil _)). }
  split; [exact H|]. intros p Hp. apply in_posts in Hp.
  rewrite Forall_forall in H. destruct (H _ Hp) as [Ht Hm].
  split; [exact Ht | exact (bot_message_buttons qs _ Hm)].
Qed.

(** ** Seen lists stay readable *)

Lemma affects_seen_parse (u : json) (w1 w2 : world) :
  store_assigned w1 /\ seen_parse w1 -> affects u w1 w2 ->
  store_assigned w2 /\ seen_parse w2.
Proof.
  intros [Hsa Hp] [Hq Ho]. split; [unfold store_assigned; rewrite Hq; exact Hsa|].
  destruct Ho as [Hu Hl | e Hu Hl | q Hin _ Hu Hl | q a Hin Hu Hl | Hu Hl];
    unfold seen_parse; rewrite Hu; try exact Hp.
  intros v s Hs.
  assert (In s (seen_ids_of (users w1) v) \/ s = Oid.to_str (q_id q))
    as [Hold | ->].
  { destruct (json_eqb u v) eqn:E.
    - apply json_eqb_eq in E. subst v. rewrite seen_ids_of_push_same in Hs.
      apply in_app_or in Hs as [Hs | [<- | []]]; auto.
    - rewrite seen_ids_of_push_other in Hs; [auto|].
      intros ->. rewrite json_eqb_refl in E. discriminate. }
  - exact (Hp v s Hold).
  - unfold store_assigned in Hsa. rewrite Forall_forall in Hsa.
    rewrite (of_str_to_str _ (Hsa q Hin)). discriminate.
Qed.

(** X4. The bot keeps its seen lists readable.  When the ids of the store
    are store-assigned and every seen string is an ObjectId to begin with,
    the same holds after any run of requests, and so the selection never
    fails on a seen string: [fetch_unseen_question] never raises InvalidId,
    for any user and exam. *)
Theorem seen_lists_stay_readable (secret : option string)
    (reqs : list request) (w : world) :
  store_assigned w -> seen_parse w ->
  let w' := run_requests secret reqs w in
  seen_parse w' /\
  forall u e s,
    fst (fetch_unseen_question u e w') <> Raise (InvalidId s) /\
    fst (handle_new_question_request u e w') <> Raise (InvalidId s).
Proof.
  intros Hsa Hp w'.
  assert (store_assigned w' /\ seen_parse w') as [_ Hp'].
  { apply (reaches_invariant
             (fun w0 => store_assigned w0 /\ seen_parse w0) w w');
      [exact affects_seen_parse | auto | apply run_requests_reaches]. }
  split; [exact Hp'|]. intros u e s.
  assert (fst (fetch_unseen_question u e w') <> Raise (InvalidId s)) as Hf.
  { destruct (fetch_unseen_question u e w') as [r w1] eqn:Hf. simpl.
    intros ->.
    destruct (fetch_unseen_question_inv _ _ _ _ _ Hf) as (_ & _ & Hin & Hnone).
    exact (Hp' u s Hin Hnone). }
  split; [exact Hf|].
  destruct (fetch_unseen_question u e w') as [[[q|]|x] w1] eqn:Hfe.
  - assert (store_budget w1 = Some 0 \/ store_budget w1 <> Some 0)
      as [Hb|Hb]
      by (destruct (store_budget w1) as [[|n]|];
          [left; reflexivity | right; discriminate | right; discriminate]).
    + rewrite (handle_new_question_request_mark_fails _ _ _ _ _ Hfe Hb).
      discriminate.
    + destruct (handle_new_question_request_served _ _ _ _ _ Hfe Hb)
        as (w2 & -> & _). discriminate.
  - rewrite (handle_new_question_request_exhausted _ _ _ _ Hfe). discriminate.
  - rewrite (handle_new_question_request_raises _ _ _ _ _ Hfe).
    simpl in *. intros Hx. apply Hf. inversion Hx. reflexivity.
Qed.

(** ** A quiz is finite *)

Lemma served_to_stored (qs : list question) (u : json) (l : list effect) :
  Forall (bot_effect qs) l ->
  incl (served_to u l) (map (fun q => Oid.to_str (q_id q)) qs).
Proof.
  induction 1 as [|[v s|p] l Hb _ IH]; simpl; [intros s [] | exact IH |].
  destruct (json_eqb (recipient_id p) u); [|exact IH].
  destruct Hb as [_ [(q & Hin & ->) | [(e & ->) | [(q & a & _ & ->) | ->]]]];
    try exact IH.
  rewrite served_id_question_message.
  apply incl_cons; [|exact IH].
  apply (in_map (fun q => Oid.to_str (q_id q))). exact Hin.
Qed.

(** X5. A quiz is finite: along any run of requests started with an empty
    log, every id served to a user is the id of a stored question, and a
    user is served at most as many questions as the store holds. *)
Theorem served_at_most_the_bank (secret : option string)
    (qs : list question) (us : list user_doc) (b : option nat)
    (r : list nat) (reqs : list request) (u : json) :
  let w := run_requests secret reqs
             {| questions := qs; users := us; store_budget := b;
                rand := r; log := [] |} in
  incl (served_to u (log w)) (map (fun q => Oid.to_str (q_id q)) qs) /\
  List.length (served_to u (log w)) <= List.length qs.
Proof.
  intros w.
  assert (incl (served_to u (log w)) (map (fun q => Oid.to_str (q_id q)) qs))
    as Hincl.
  { apply served_to_stored.
    exact (run_bot_effects secret reqs
             {| questions := qs; users := us; store_budget := b;
                rand := r; log := [] |} (Forall_nil _)). }
  split; [exact Hincl|].
  assert (served_once {| questions := qs; users := us; store_budget := b;
                         rand := r; log := [] |}) as H0.
  { intros v. cbn [log served_to]. split; [constructor | intros s []]. }
  destruct (evolves_run secret reqs
              {| questions := qs; users := us; store_budget := b;
                 rand := r; log := [] |}) as (_ & _ & _ & _ & Hs).
  destruct (Hs H0 u) as [Hnd _].
  rewrite <- (length_map (fun q => Oid.to_str (q_id q)) qs).
  apply NoDup_incl_length; assumption.
Qed.

(** X6. The question bank is read-only and seen lists only grow: after any
    run of requests the questions are the ones before, every seen string
    of every user is still in that user's list, and a string that joined a
    list is the id string of a stored question. *)
Theorem bank_read_only_seen_grows (secret : option string)
    (reqs : list request) (w : world) :
  let w' := run_requests secret reqs w in
  questions w' = questions w /\
  (forall v, incl (seen_ids_of (users w) v) (seen_ids_of (users w') v)) /\
  (forall v s, In s (seen_ids_of (users w') v) ->
     In s (seen_ids_of (users w) v) \/
     exists q, In q (questions w) /\ s = Oid.to_str (q_id q)).
Proof.
  intros w'.
  destruct (evolves_run secret reqs w) as (Hq & Hi & Ho & _ & _).
  auto.
Qed.

(** ** Postback payloads *)

Lemma prefix_split (p s : string) :
  String.prefix p s = true -> exists r, s = p +++ r.
Proof.
  revert s. induction p as [|c p IH]; intros s; simpl.
  - intros _. exists s. reflexivity.
  - destruct s as [|d s]; simpl; [discriminate|].
    destruct (ascii_dec c d) as [E|E]; [subst d | discriminate].
    intros H. destruct (IH s H) as [r ->]. exists r. reflexivity.
Qed.

Lemma split_nonempty (sep : ascii) (s : string) :
  exists p ps, PyStr.split sep s = p :: ps.
Proof.
  induction s as [|c s (p & ps & IH)]; simpl; [eauto|].
  destruct (Ascii.eqb c sep); [eauto|]. rewrite IH. eauto.
Qed.

Lemma parts_of_answer (rest : string) :
  parts_of ("ANSWER_" +++ rest)
  = "ANSWER" :: PyStr.split PyStr.underscore rest.
Proof.
  unfold parts_of.
  change ("ANSWER_" +++ rest) with ("ANSWER" +++ String PyStr.underscore rest).
  apply split_app. reflexivity.
Qed.

Lemma parts_of_next (rest : string) :
  parts_of ("NEXT_" +++ rest) = "NEXT" :: PyStr.split PyStr.underscore rest.
Proof.
  unfold parts_of.
  change ("NEXT_" +++ rest) with ("NEXT" +++ String PyStr.underscore rest).
  apply split_app. reflexivity.
Qed.

Lemma handle_postback_next (u : json) (rest : string) (w : world) :
  handle_postback u (JStr ("NEXT_" +++ rest)) w
  = match PyStr.split PyStr.underscore rest with
    | e :: _ => handle_new_question_request u e w
    | [] => (Raise IndexError, w)
    end.
Proof.
  unfold handle_postback.
  replace (PyStr.startswith ("NEXT_" +++ rest) "ANSWER_") with false
    by reflexivity.
  unfold PyStr.startswith at 1. rewrite prefix_app.
  fold (parts_of ("NEXT_" +++ rest)). rewrite parts_of_next.
  unfold bind, py_index. simpl.
  destruct (PyStr.split PyStr.underscore rest); reflexivity.
Qed.

(** X7. The Next button leads back to the selection.  Clicking the button
    made for an exam name without underscore asks for the next question of
    exactly that exam; when the stored exam name has an underscore, the
    decoder keeps only what stands before the first one. *)
Theorem next_button_round_trip (u : json) (e : string) (w : world) :
  PyStr.has_char PyStr.underscore e = false ->
  handle_postback u (JStr (b_payload (next_button e))) w
  = handle_new_question_request u e w /\
  forall rest,
    handle_postback u (JStr (b_payload (next_button (e +++ "_" +++ rest)))) w
    = handle_new_question_request u e w.
Proof.
  intros He. unfold next_button, b_payload. split.
  - rewrite handle_postback_next, (split_no_sep _ _ He).
    reflexivity.
  - intros rest. rewrite handle_postback_next.
    change (e +++ "_" +++ rest) with (e +++ String PyStr.underscore rest).
    rewrite (split_app _ _ _ He). reflexivity.
Qed.

(** X8. A malformed postback never reaches the store and sends nothing:
    a payload that is no string raises AttributeError, a string with
    neither marker is ignored, an ANSWER payload without a letter part
    raises IndexError, and one whose id part is no ObjectId raises
    InvalidId; in each case the world is exactly as before. *)
Theorem malformed_postback_untouched (u : json) (w : world) :
  (forall p, (forall s, p <> JStr s) ->
     handle_postback u p w = (Raise AttributeError, w)) /\
  (forall s, PyStr.startswith s "ANSWER_" = false ->
             PyStr.startswith s "NEXT_" = false ->
     handle_postback u (JStr s) w = (Ok tt, w)) /\
  (forall s, PyStr.startswith s "ANSWER_" = true ->
             nth_error (parts_of s) 2 = None ->
     handle_postback u (JStr s) w = (Raise IndexError, w)) /\
  (forall s qid a, PyStr.startswith s "ANSWER_" = true ->
             nth_error (parts_of s) 1 = Some qid ->
             nth_error (parts_of s) 2 = Some a ->
             Oid.of_str qid = None ->
     handle_postback u (JStr s) w = (Raise (InvalidId qid), w)).
Proof.
  split; [|split; [|split]].
  - intros p Hp. destruct p; try reflexivity. exfalso. exact (Hp s eq_refl).
  - intros s Ha Hn. unfold handle_postback. rewrite Ha, Hn. reflexivity.
  - intros s Ha H2. unfold handle_postback. rewrite Ha.
    fold (parts_of s). unfold bind, py_index. rewrite H2.
    destruct (prefix_split _ _ Ha) as [rest ->].
    rewrite parts_of_answer.
    destruct (split_nonempty PyStr.underscore rest) as (p & ps & ->).
    reflexivity.
  - intros s qid a Ha H1 H2 Ho. unfold handle_postback. rewrite Ha.
    fold (parts_of s). unfold bind, py_index. rewrite H1, H2.
    unfold ret at 1. unfold ret at 1.
    unfold get_question_by_id, bind, ObjectId. rewrite Ho. reflexivity.
Qed.

(** ** The selection finds what is there *)

(** X9. The selection is not exhausted early.  With the store reachable
    and the user's seen strings readable, as long as some question of the
    exam has an id that none of the seen strings denotes (for a new user:
    as long as the exam has a question), the request is served: the handler
    returns, some unseen question of that exam is marked and then posted to
    the sender, and no completion message is sent. *)
Theorem unseen_question_is_served (u : json) (e : string) (w : world)
    (q : question) :
  store_budget w = None ->
  (forall s, In s (seen_ids_of (users w) u) -> Oid.of_str s <> None) ->
  In q (questions w) -> q_exam_name q = e ->
  (forall s, In s (seen_ids_of (users w) u) ->
             Oid.of_str s <> Some (q_id q)) ->
  exists q',
    In q' (questions w) /\ q_exam_name q' = e /\
    ~ In (Oid.to_str (q_id q')) (seen_ids_of (users w) u) /\
    fst (handle_new_question_request u e w) = Ok tt /\
    log (snd (handle_new_question_request u e w))
    = log w ++ [Push u (Oid.to_str (q_id q'));
                post_of u (question_message q')].
Proof.
  intros Hb Hparse Hin He Hunseen.
  destruct (fetch_unseen_question u e w) as [r w1] eqn:Hf.
  destruct (fetch_unseen_question_inv _ _ _ _ _ Hf) as (_ & Hn & Hr).
  destruct r as [[q'|]|x].
  - destruct (fetched_not_seen _ _ _ _ _ Hf) as (Hin' & He' & Hfresh).
    assert (store_budget w1 <> Some 0) as Hb1
      by (rewrite (Hn Hb); discriminate).
    destruct (handle_new_question_request_served _ _ _ _ _ Hf Hb1)
      as (w' & Hh & _ & _ & Hl & _).
    exists q'. rewrite Hh. simpl. auto.
  - exfalso. destruct (fetch_none_exhausted _ _ _ _ Hf) as [_ Hall].
    destruct (Hall q Hin He) as (s & Hs & Hp).
    exact (Hunseen s Hs Hp).
  - exfalso. destruct x; try contradiction.
    + destruct Hr as [Hs Hnone]. exact (Hparse _ Hs Hnone).
    + rewrite (Hn Hb) in Hr. discriminate.
Qed.

(** ** Marking a question as seen *)

Lemma length_push_seen (u : json) (s : string) (us : list user_doc) :
  List.length (push_seen u s us)
  = List.length us + (if has_user us u then 0 else 1).
Proof.
  unfold has_user. induction us as [|d us IH]; simpl; [reflexivity|].
  destruct (json_eqb (u_id d) u); simpl; [lia | rewrite IH; lia].
Qed.

(** X10. For a user whose id is a string, marking is an upsert on that
    user's document alone.  With the store unreachable it raises and
    changes nothing.  Otherwise the id string is appended to the end of
    the user's seen list (a first-time user gets a document holding just
    that string, no second document is ever made for a known user), the
    list of every other user of a string id is as before, the questions
    are untouched and the push is logged. *)
Theorem mark_is_upsert (name : string) (o : Oid.ObjectId) (w : world) :
  let u := JStr name in
  (store_budget w = Some 0 ->
     mark_question_as_seen u o w = (Raise StoreError, w)) /\
  (store_budget w <> Some 0 ->
     exists w',
       mark_question_as_seen u o w = (Ok tt, w') /\
       questions w' = questions w /\
       seen_ids_of (users w') u = seen_ids_of (users w) u ++ [Oid.to_str o] /\
       (forall other, other <> name ->
          seen_ids_of (users w') (JStr other)
          = seen_ids_of (users w) (JStr other)) /\
       List.length (users w')
       = List.length (users w) + (if has_user (users w) u then 0 else 1) /\
       log w' = log w ++ [Push u (Oid.to_str o)]).
Proof.
  intros u.
  destruct (mark_question_as_seen_inv u o w)
    as [(Hb & Hm) | (Hb & w' & Hm & Hq & Hu & Hl & _)].
  - split; [intros _; exact Hm | intros Hne; contradiction].
  - split; [intros Hb0; contradiction|]. intros _.
    exists w'. rewrite Hu.
    repeat split; auto using seen_ids_of_push_same, length_push_seen.
    intros other Hv. apply seen_ids_of_push_other. subst u.
    intros E. inversion E. congruence.
Qed.

(** ** From a click to its grading *)

Lemma handle_event_postback (sid : json) (payload : string) (w : world) :
  handle_event (postback_event sid payload) w
  = handle_postback sid (JStr payload) w.
Proof. reflexivity. Qed.

(** X11. Clicking an answer button is graded.  For a stored question with
    a store-assigned id, ids unique and the store reachable, the delivery
    of the postback of any of its four answer buttons is acknowledged with
    ("OK", 200) and answered with one message to the sender: the grading
    of that question for the button's letter, carrying the Next button of
    the question's own exam. *)
Theorem answer_click_is_graded (secret : option string) (u : json)
    (q : question) (title letter : string) (w : world) :
  In q (questions w) ->
  NoDup (map q_id (questions w)) ->
  Oid.assigned (q_id q) ->
  store_budget w = None ->
  In letter letters ->
  webhook secret
    (delivery [postback_event u
                 (b_payload (answer_button title (Oid.to_str (q_id q)) letter))])
    w
  = (Ok (BodyStatus "OK" 200),
     add_log (post_of u {| m_text := reply_text q letter;
                           m_quick_replies :=
                             Some [next_button (q_exam_name q)] |}) w).
Proof.
  intros Hin Hnd Ha Hb Hlet.
  rewrite webhook_delivery. cbn [for_each]. unfold bind at 1.
  rewrite handle_event_postback.
  destruct (answer_button_decodes title (q_id q) letter Hlet) as [Hp Hparts].
  assert (store_budget w <> Some 0) as Hb0 by congruence.
  destruct (handle_postback_answer_reachable u
              (b_payload (answer_button title (Oid.to_str (q_id q)) letter))
              (Oid.to_str (q_id q)) letter (q_id q) w Hp
              ltac:(rewrite Hparts; reflexivity)
              ltac:(rewrite Hparts; reflexivity)
              (of_str_to_str _ Ha) Hb0)
    as (w1 & _ & Hsame & Hh).
  rewrite Hh, (find_unique _ _ Hnd Hin), (Hsame Hb). reflexivity.
Qed.

(** ** Deliveries with several events *)

Lemma for_each_app {A} (body : A -> M unit) (l1 l2 : list A) (w : world) :
  for_each body (l1 ++ l2) w
  = match for_each body l1 w with
    | (Ok _, w1) => for_each body l2 w1
    | (Raise x, w1) => (Raise x, w1)
    end.
Proof.
  revert w. induction l1 as [|a l1 IH]; intros w; simpl; [reflexivity|].
  unfold bind. destruct (body a w) as [[[]|x] w1]; [apply IH | reflexivity].
Qed.

(** X12. Events are handled in order, and the first exception ends the
    delivery.  A delivery of two runs of events behaves as the delivery of
    the first run followed, when that one is acknowledged, by the delivery
    of the second in the world the first one left; when the first run
    raises, the exception is the result, the replies already sent stay
    sent and the second run is not looked at. *)
Theorem delivery_in_order (secret : option string)
    (events1 events2 : list json) (w : world) :
  webhook secret (delivery (events1 ++ events2)) w
  = match webhook secret (delivery events1) w with
    | (Ok _, w1) => webhook secret (delivery events2) w1
    | (Raise x, w1) => (Raise x, w1)
    end.
Proof.
  rewrite !webhook_delivery, for_each_app.
  destruct (for_each handle_event events1 w) as [[[]|x] w1];
    [|reflexivity].
  rewrite webhook_delivery. reflexivity.
Qed.

(** ** Completion means exhaustion *)

(** X13. The completion message is sent exactly when nothing is left.  With
    the store reachable and the user's seen strings readable, a request
    appends the completion message for the requested exam, and nothing
    else, if and only if every question of that exam has its id among the
    user's seen strings. *)
Theorem completion_iff_exhausted (u : json) (e : string) (w : world) :
  store_budget w = None ->
  (forall s, In s (seen_ids_of (users w) u) -> Oid.of_str s <> None) ->
  log (snd (handle_new_question_request u e w))
  = log w ++ [post_of u (completion_message e)]
  <->
  (forall q, In q (questions w) -> q_exam_name q = e ->
     exists s, In s (seen_ids_of (users w) u) /\
               Oid.of_str s = Some (q_id q)).
Proof.
  intros Hb Hparse. split.
  - intros Hl.
    destruct (fetch_unseen_question u e w) as [[[q|]|x] w1] eqn:Hf;
      pose proof (fetch_unseen_question_inv _ _ _ _ _ Hf)
        as ((_ & _ & Hl1) & Hn & Hr).
    + exfalso.
      assert (store_budget w1 <> Some 0) as Hb1
        by (rewrite (Hn Hb); discriminate).
      destruct (handle_new_question_request_served _ _ _ _ _ Hf Hb1)
        as (w' & Hh & _ & _ & Hl' & _).
      rewrite Hh in Hl. simpl in Hl. rewrite Hl' in Hl.
      apply app_inv_head in Hl. discriminate.
    + destruct (fetch_none_exhausted _ _ _ _ Hf) as [_ Hall]. exact Hall.
    + exfalso.
      rewrite (handle_new_question_request_raises _ _ _ _ _ Hf) in Hl.
      simpl in Hl. rewrite Hl1 in Hl.
      rewrite <- (app_nil_r (log w)) in Hl at 1.
      apply app_inv_head in Hl. discriminate.
  - intros Hall.
    destruct (exhausted_fetch u e w Hb (conj Hparse Hall))
      as (w1 & Hf & (_ & _ & Hl1)).
    rewrite (handle_new_question_request_exhausted _ _ _ _ Hf). simpl.
    rewrite Hl1. reflexivity.
Qed.

(** ** Normal operation is acknowledged *)

Lemma handle_new_question_request_healthy (u : json) (e : string)
    (w : world) :
  healthy w -> fst (handle_new_question_request u e w) = Ok tt.
Proof.
  intros (Hb & _ & Hp).
  destruct (fetch_unseen_question u e w) as [[[q|]|x] w1] eqn:Hf;
    pose proof (fetch_unseen_question_inv _ _ _ _ _ Hf) as (_ & Hn & Hr).
  - assert (store_budget w1 <> Some 0) as Hb1
      by (rewrite (Hn Hb); discriminate).
    destruct (handle_new_question_request_served _ _ _ _ _ Hf Hb1)
      as (w' & -> & _). reflexivity.
  - rewrite (handle_new_question_request_exhausted _ _ _ _ Hf). reflexivity.
  - exfalso. destruct x; try contradiction.
    + destruct Hr as [Hs Hnone]. exact (Hp u _ Hs Hnone).
    + rewrite (Hn Hb) in Hr. discriminate.
Qed.

Lemma handle_postback_healthy (u : json) (payload : string) (w : world) :
  healthy w -> readable_payload payload ->
  fst (handle_postback u (JStr payload) w) = Ok tt.
Proof.
  intros Hh Hr. pose proof Hh as (Hb & _ & _).
  destruct (PyStr.startswith payload "ANSWER_") eqn:Ea.
  - destruct Hr as [Hr | (qid & a & o & E1 & E2 & Ho)]; [congruence|].
    assert (store_budget w <> Some 0) as Hb0 by congruence.
    destruct (handle_postback_answer_reachable u payload qid a o w
                Ea E1 E2 Ho Hb0) as (w1 & _ & _ & ->).
    destruct (find _ (questions w)); reflexivity.
  - destruct (PyStr.startswith payload "NEXT_") eqn:En.
    + destruct (prefix_split _ _ En) as [rest ->].
      rewrite handle_postback_next.
      destruct (split_nonempty PyStr.underscore rest) as (p & ps & ->).
      apply handle_new_question_request_healthy. exact Hh.
    + unfold handle_postback. rewrite Ea, En. reflexivity.
Qed.

Lemma handle_event_healthy (event : json) (w : world) :
  healthy w -> expected_event event ->
  fst (handle_event event w) = Ok tt /\ healthy (snd (handle_event event w)).
Proof.
  intros Hh Hev. split.
  - destruct Hev as [sid t Ht | sid p Hp].
    + unfold text_event.
      rewrite (handle_event_text
                 [("sender", JObj [("id", sid)]);
                  ("message", JObj [("text", JStr t)])]
                 [("id", sid)] [("text", JStr t)] sid t w
                 eq_refl eq_refl eq_refl eq_refl Ht).
      destruct (exam_of_text (str_upper t));
        [apply handle_new_question_request_healthy; exact Hh | reflexivity].
    + rewrite handle_event_postback.
      apply handle_postback_healthy; assumption.
  - destruct Hh as (Hb & Hsa & Hp).
    destruct (keeps_handle_event event w) as (_ & _ & _ & Hb' & _).
    destruct (reaches_invariant
                (fun w0 => store_assigned w0 /\ seen_parse w0) w
                (snd (handle_event event w)) affects_seen_parse
                (conj Hsa Hp) (handle_event_reaches event w)) as [Hsa' Hp'].
    repeat split; auto.
Qed.

Lemma for_each_healthy (events : list json) (w : world) :
  healthy w -> Forall expected_event events ->
  fst (for_each handle_event events w) = Ok tt.
Proof.
  intros Hh Hall. revert w Hh.
  induction Hall as [|ev events Hev _ IH]; intros w Hh; [reflexivity|].
  simpl. unfold bind.
  destruct (handle_event_healthy ev w Hh Hev) as [Hr Hh'].
  destruct (handle_event ev w) as [r w1]. simpl in Hr, Hh'. subst r.
  exact (IH w1 Hh').
Qed.

(** X14. Normal operation is always acknowledged.  With the store
    reachable, its ids store-assigned and the seen strings readable, a
    delivery made of text messages and of clicks with readable payloads
    (the bot's own buttons among them) never raises: the handler returns
    ("OK", 200), however many events it carries and whatever they ask. *)
Theorem expected_delivery_acknowledged (secret : option string)
    (events : list json) (w : world) :
  healthy w -> Forall expected_event events ->
  fst (webhook secret (delivery events) w) = Ok (BodyStatus "OK" 200).
Proof.
  intros Hh Hall. rewrite webhook_delivery.
  pose proof (for_each_healthy events w Hh Hall) as Hr.
  destruct (for_each handle_event events w) as [[[]|x] w1];
    [reflexivity | discriminate].
Qed.

End Model.

(** * Examples *)

(** The theorems at work on the sample bank.  The texts are ASCII, where
    [str.upper] is [PyStr.upper]. *)

Lemma unknown_question_sends_nothing_witness :
  let payload := "ANSWER_0123456789abcdef01234567_c" in
  log (snd (handle_postback PyStr.upper Sample.alice (JStr payload) Sample.w0)) = [] /\
  fst (handle_postback PyStr.upper Sample.alice (JStr payload) Sample.w0) = Ok tt.
Proof.
  intros payload.
  assert (PyStr.startswith payload "ANSWER_" = true) as Hp by reflexivity.
  pose proof (unknown_question_sends_nothing PyStr.upper Sample.alice payload
                Sample.w0 Hp) as H.
  cbv zeta in H.
  destruct H as (Hl & _ & _ & Hok).
  - intros qid q E1 Hin.
    assert (qid = "0123456789abcdef01234567") as ->
      by (vm_compute in E1; congruence).
    destruct Hin as [<- | [<- | [<- | []]]]; vm_compute; discriminate.
  - split; [exact Hl|].
    apply (Hok "0123456789abcdef01234567" "c"
             [x01; x23; x45; x67; x89; xab; xcd; xef; x01; x23; x45; x67]);
      [vm_compute; reflexivity | vm_compute; reflexivity
      | vm_compute; reflexivity | discriminate].
Defined.

Lemma next_button_carries_stored_exam_witness :
  let payload := "ANSWER_507f1f77bcf86cd799439012_NEET_x" in
  posts (log (snd (handle_postback PyStr.upper Sample.alice (JStr payload) Sample.w0)))
  = [ {| recipient_id := Sample.alice; messaging_type := "RESPONSE";
         message_payload := grade_message PyStr.upper Sample.q2 "NEET" |} ] /\
  (log (snd (handle_postback PyStr.upper Sample.alice (JStr payload) Sample.w0)) = []
   \/ exists qid q m,
        nth_error (parts_of payload) 1 = Some qid /\
        Oid.of_str qid = Some (q_id q) /\
        In q (questions Sample.w0) /\
        log (snd (handle_postback PyStr.upper Sample.alice (JStr payload) Sample.w0))
        = [] ++ [post_of Sample.alice m] /\
        m_quick_replies m
        = Some [ {| b_type := "postback"; b_title := "Next Question";
                    b_payload := "NEXT_" +++ q_exam_name q |} ]).
Proof.
  intros payload. split; [vm_compute; reflexivity|].
  exact (next_button_carries_stored_exam PyStr.upper Sample.alice payload Sample.w0
           eq_refl).
Defined.

Lemma grading_compares_exactly_witness :
  exists w1,
    handle_postback PyStr.upper Sample.alice
      (JStr "ANSWER_507f1f77bcf86cd799439011_B") Sample.w0
    = (Ok tt,
       add_log (post_of Sample.alice (grade_message PyStr.upper Sample.q1 "B")) w1).
Proof.
  destruct (grading_compares_exactly PyStr.upper Sample.alice
              "ANSWER_507f1f77bcf86cd799439011_B"
              "507f1f77bcf86cd799439011" "B" Sample.id1 Sample.q1 Sample.w0)
    as ((w1 & _ & H) & _);
    try (vm_compute; reflexivity); [discriminate|].
  exists w1. exact H.
Defined.

(** Grading is case-sensitive: for the question whose stored letter is
    "b", the button letter "b" is graded Correct and its upper-case form
    "B" is graded Incorrect. *)
Lemma grading_is_case_sensitive :
  PyStr.upper "b" = "B" /\
  posts (log (snd (handle_postback PyStr.upper Sample.alice
                     (JStr "ANSWER_507f1f77bcf86cd799439011_b") Sample.w0)))
  = [ {| recipient_id := Sample.alice; messaging_type := "RESPONSE";
         message_payload := grade_message PyStr.upper Sample.q1 "b" |} ] /\
  posts (log (snd (handle_postback PyStr.upper Sample.alice
                     (JStr "ANSWER_507f1f77bcf86cd799439011_B") Sample.w0)))
  = [ {| recipient_id := Sample.alice; messaging_type := "RESPONSE";
         message_payload := grade_message PyStr.upper Sample.q1 "B" |} ] /\
  says_correct (grade_message PyStr.upper Sample.q1 "b") = true /\
  says_correct (grade_message PyStr.upper Sample.q1 "B") = false.
Proof. repeat split; vm_compute; reflexivity. Qed.

Lemma answer_buttons_round_trip_witness :
  let w' := snd (handle_new_question_request Sample.alice "JEE" Sample.w0) in
  exists m bs,
    log w' = [] ++ [Push Sample.alice (Oid.to_str Sample.id2);
                    post_of Sample.alice m] /\
    m_quick_replies m = Some bs /\
    List.length bs = 4 /\
    map b_title bs = ["A"; "B"; "C"; "D"] /\
    map b_payload bs
    = [ "ANSWER_507f1f77bcf86cd799439012_a";
        "ANSWER_507f1f77bcf86cd799439012_b";
        "ANSWER_507f1f77bcf86cd799439012_c";
        "ANSWER_507f1f77bcf86cd799439012_d" ].
Proof.
  assert (fetch_unseen_question Sample.alice "JEE" Sample.w0
          = (Ok (Some Sample.q2), set_rand [0] Sample.w0)) as Hf
    by (vm_compute; reflexivity).
  assert (NoDup (map q_id (questions Sample.w0))) as Hnd.
  { repeat constructor; simpl; intros H;
      repeat (destruct H as [H|H]; [discriminate|]); exact H. }
  pose proof (answer_buttons_round_trip PyStr.upper Sample.alice "JEE" Sample.w0 _ _ Hf)
    as H.
  cbv zeta in H.
  destruct H as (m & bs & Hl & Hm & Hlen & Ht & _);
    [discriminate | reflexivity | exact Hnd |].
  exists m, bs. repeat split; auto.
  assert (log (snd (handle_new_question_request Sample.alice "JEE" Sample.w0))
          = [Push Sample.alice (Oid.to_str Sample.id2);
             post_of Sample.alice (question_message Sample.q2)]) as Hc
    by (vm_compute; reflexivity).
  rewrite Hc in Hl. change (log Sample.w0) with (@nil effect) in Hl.
  simpl in Hl.
  assert (m = question_message Sample.q2) as -> by (inversion Hl; auto).
  inversion Hm. vm_compute. reflexivity.
Defined.

Lemma verification_handshake_witness :
  webhook PyStr.upper (Some "s3cret")
    {| method := GET;
       args := [("hub.mode", "subscribe"); ("hub.verify_token", "s3cret");
                ("hub.challenge", "1158201444")];
       req_body := NoJson |} Sample.w0
  = (Ok (Body (Some "1158201444")), Sample.w0) /\
  webhook PyStr.upper (Some "s3cret")
    {| method := GET;
       args := [("hub.mode", "subscribe"); ("hub.verify_token", "guess");
                ("hub.challenge", "1158201444")];
       req_body := NoJson |} Sample.w0
  = (Ok (BodyStatus "Verification token mismatch" 403), Sample.w0).
Proof.
  split.
  - apply (proj1 (verification_handshake PyStr.upper (Some "s3cret")
             [("hub.mode", "subscribe"); ("hub.verify_token", "s3cret");
              ("hub.challenge", "1158201444")] NoJson Sample.w0)).
    reflexivity.
  - apply (proj2 (verification_handshake PyStr.upper (Some "s3cret")
             [("hub.mode", "subscribe"); ("hub.verify_token", "guess");
              ("hub.challenge", "1158201444")] NoJson Sample.w0)).
    discriminate.
Defined.




Lemma store_failure_propagates_witness :
  webhook PyStr.upper None
    (delivery [text_event Sample.alice "neet";
               text_event Sample.alice "hello"])
    Sample.w_failing_mark
  = (Raise StoreError,
     snd (handle_new_question_request Sample.alice "NEET"
            Sample.w_failing_mark)) /\
  log (snd (handle_new_question_request Sample.alice "NEET"
              Sample.w_failing_mark)) = [] /\
  fst (handle_new_question_request Sample.alice "NEET" Sample.w_down)
  = Raise StoreError /\
  fst (handle_new_question_request Sample.alice "NEET"
         (set_budget (Some 1) Sample.w0))
  = Raise StoreError.
Proof.
  pose proof (store_failure_propagates PyStr.upper None Sample.alice
                "neet" "NEET" [text_event Sample.alice "hello"]
                Sample.w_failing_mark) as H.
  cbv zeta in H.
  destruct H as (_ & _ & Hmark & Hprop); [discriminate | reflexivity |].
  assert (fetch_unseen_question Sample.alice "NEET" Sample.w_failing_mark
          = (Ok (Some Sample.q1), set_budget (Some 0) Sample.w_failing_mark))
    as Hf by (vm_compute; reflexivity).
  destruct (Hprop (Hmark _ _ Hf eq_refl)) as (Hl & _ & _ & _ & Hw).
  split; [exact Hw|]. split; [exact Hl|].
  split.
  - pose proof (store_failure_propagates PyStr.upper None Sample.alice
                  "neet" "NEET" [] Sample.w_down) as H.
    cbv zeta in H.
    destruct H as (Hdown & _); [discriminate | reflexivity |].
    exact (Hdown eq_refl).
  - pose proof (store_failure_propagates PyStr.upper None Sample.alice
                  "neet" "NEET" [] (set_budget (Some 1) Sample.w0)) as H.
    cbv zeta in H.
    destruct H as (_ & Hagg & _); [discriminate | reflexivity |].
    apply Hagg; [reflexivity | intros s []].
Defined.

(** A store failure is not caught inside the operation: with the store
    unreachable, or failing at the seen mark, a text message asking for
    NEET ends the webhook handler with the store's exception. *)
Lemma store_failure_not_caught :
  webhook PyStr.upper None (delivery [text_event Sample.alice "NEET"])
    Sample.w_down
  = (Raise StoreError, Sample.w_down) /\
  fst (webhook PyStr.upper None (delivery [text_event Sample.alice "NEET"])
         Sample.w_failing_mark)
  = Raise StoreError.
Proof. split; vm_compute; reflexivity. Qed.

Lemma never_served_twice_witness :
  let w := run_requests PyStr.upper None
             [delivery [text_event Sample.alice "jee"];
              delivery [text_event Sample.alice "JEE again"]]
             Sample.w0 in
  served_to Sample.alice (log w) = [Oid.to_str Sample.id2] /\
  NoDup (served_to Sample.alice (log w)) /\
  exists w3,
    handle_new_question_request Sample.alice "JEE"
      (run_requests PyStr.upper None [delivery [text_event Sample.alice "neet"]] w)
    = (Ok tt,
       add_log (post_of Sample.alice (completion_message "JEE")) w3).
Proof.
  intros w.
  pose proof (never_served_twice PyStr.upper None [Sample.q1; Sample.q2; Sample.q3] []
                None [1; 0]
                [delivery [text_event Sample.alice "jee"];
                 delivery [text_event Sample.alice "JEE again"]]) as H.
  cbv zeta in H. destruct H as (H1 & _ & H3).
  split; [vm_compute; reflexivity|].
  split; [exact (proj1 (H1 Sample.alice))|].
  assert (fetch_unseen_question Sample.alice "JEE" w = (Ok None, w)) as Hf
    by (vm_compute; reflexivity).
  assert (store_budget w = None) as Hb by (vm_compute; reflexivity).
  assert (store_assigned w) as Hsa.
  { unfold store_assigned.
    replace (questions w) with [Sample.q1; Sample.q2; Sample.q3]
      by (vm_compute; reflexivity).
    repeat constructor. }
  destruct (H3 Sample.alice "JEE" w Hf Hb Hsa
              [delivery [text_event Sample.alice "neet"]])
    as (w3 & _ & H & _).
  exists w3. exact H.
Defined.

Lemma seen_before_sent_witness :
  let w' := snd (handle_new_question_request Sample.alice "NEET" Sample.w0) in
  log w' = [Push Sample.alice (Oid.to_str Sample.id3);
            post_of Sample.alice (question_message Sample.q3)] /\
  forall q2 w3,
    fetch_unseen_question Sample.alice "NEET"
      (run_requests PyStr.upper None [delivery [text_event Sample.alice "jee"]] w')
    = (Ok (Some q2), w3) ->
    q_id q2 <> Sample.id3.
Proof.
  assert (fetch_unseen_question Sample.alice "NEET" Sample.w0
          = (Ok (Some Sample.q3), set_rand [0] Sample.w0)) as Hf
    by (vm_compute; reflexivity).
  pose proof (seen_before_sent PyStr.upper Sample.alice "NEET" Sample.w0 _ _ Hf) as H.
  cbv zeta in H. destruct H as [H _].
  destruct H as (_ & Hl & _ & Hnever); [discriminate|].
  split; [exact Hl|].
  intros q2 w3.
  exact (Hnever None [delivery [text_event Sample.alice "jee"]] "NEET" q2 w3).
Defined.

Lemma event_leaves_others_alone_witness :
  let bob := JStr "17841400000000002" in
  let w := snd (handle_event PyStr.upper (text_event bob "jee") Sample.w0) in
  let w' :=
    snd (handle_event PyStr.upper (text_event Sample.alice "neet") w) in
  seen_ids_of (users w') bob = [Oid.to_str Sample.id2] /\
  posts_to bob (log w') = posts_to bob (log w).
Proof.
  intros bob w w'.
  assert (seen_ids_of (users w) bob = [Oid.to_str Sample.id2]) as Hs
    by (vm_compute; reflexivity).
  rewrite <- Hs.
  apply (event_leaves_others_alone PyStr.upper
           (text_event Sample.alice "neet") "17841400000000002" w).
  - intros sid Hsid. exists "17841400000000001".
    vm_compute in Hsid. congruence.
  - discriminate.
Defined.

Lemma seen_lists_stay_readable_witness :
  let w' := run_requests PyStr.upper None
              [delivery [text_event Sample.alice "neet";
                         text_event Sample.alice "next"]]
              Sample.w0 in
  seen_ids_of (users w') Sample.alice
  = [Oid.to_str Sample.id3; Oid.to_str Sample.id1] /\
  seen_parse w'.
Proof.
  intros w'. split; [vm_compute; reflexivity|].
  refine (proj1 (seen_lists_stay_readable PyStr.upper None _ Sample.w0 _ _)).
  - repeat constructor.
  - intros v s [].
Defined.

Lemma next_button_round_trip_witness :
  handle_postback PyStr.upper Sample.alice (JStr "NEXT_JEE") Sample.w0
  = handle_new_question_request Sample.alice "JEE" Sample.w0 /\
  handle_postback PyStr.upper Sample.alice (JStr "NEXT_JEE_ADVANCED") Sample.w0
  = handle_new_question_request Sample.alice "JEE" Sample.w0.
Proof.
  destruct (next_button_round_trip PyStr.upper Sample.alice "JEE" Sample.w0 eq_refl)
    as [H1 H2].
  split; [exact H1 | exact (H2 "ADVANCED")].
Defined.

Lemma malformed_postback_untouched_witness :
  handle_postback PyStr.upper Sample.alice (JNum 7) Sample.w_down
  = (Raise AttributeError, Sample.w_down) /\
  handle_postback PyStr.upper Sample.alice (JStr "GET_STARTED") Sample.w_down
  = (Ok tt, Sample.w_down) /\
  handle_postback PyStr.upper Sample.alice (JStr "ANSWER_507f1f77bcf86cd799439011")
    Sample.w_down
  = (Raise IndexError, Sample.w_down) /\
  handle_postback PyStr.upper Sample.alice (JStr "ANSWER_42_a") Sample.w_down
  = (Raise (InvalidId "42"), Sample.w_down).
Proof.
  destruct (malformed_postback_untouched PyStr.upper Sample.alice Sample.w_down)
    as (H1 & H2 & H3 & H4).
  split; [apply H1; discriminate|].
  split; [apply H2; reflexivity|].
  split; [apply H3; reflexivity|].
  apply (H4 "ANSWER_42_a" "42" "a"); reflexivity.
Defined.

Lemma unseen_question_is_served_witness :
  exists q',
    In q' (questions Sample.w0) /\ q_exam_name q' = "NEET" /\
    fst (handle_new_question_request Sample.alice "NEET" Sample.w0) = Ok tt /\
    log (snd (handle_new_question_request Sample.alice "NEET" Sample.w0))
    = [] ++ [Push Sample.alice (Oid.to_str (q_id q'));
             post_of Sample.alice (question_message q')].
Proof.
  destruct (unseen_question_is_served Sample.alice "NEET" Sample.w0 Sample.q1)
    as (q' & Hin & He & _ & Hr & Hl).
  - reflexivity.
  - intros s [].
  - left. reflexivity.
  - reflexivity.
  - intros s [].
  - exists q'. auto.
Defined.

Lemma answer_click_is_graded_witness :
  webhook PyStr.upper None
    (delivery [postback_event Sample.alice
                 "ANSWER_507f1f77bcf86cd799439013_c"])
    Sample.w0
  = (Ok (BodyStatus "OK" 200),
     add_log (post_of Sample.alice (grade_message PyStr.upper Sample.q3 "c")) Sample.w0).
Proof.
  apply (answer_click_is_graded PyStr.upper None Sample.alice Sample.q3 "C" "c"
           Sample.w0).
  - right. right. left. reflexivity.
  - repeat constructor; simpl; intros H;
      repeat (destruct H as [H|H]; [discriminate|]); exact H.
  - reflexivity.
  - reflexivity.
  - right. right. left. reflexivity.
Defined.

Lemma completion_iff_exhausted_witness :
  let w := snd (handle_new_question_request Sample.alice "JEE" Sample.w0) in
  seen_ids_of (users w) Sample.alice = [Oid.to_str Sample.id2] /\
  log (snd (handle_new_question_request Sample.alice "JEE" w))
  = log w ++ [post_of Sample.alice (completion_message "JEE")].
Proof.
  intros w.
  assert (seen_ids_of (users w) Sample.alice = [Oid.to_str Sample.id2])
    as Hseen by (vm_compute; reflexivity).
  assert (questions w = [Sample.q1; Sample.q2; Sample.q3]) as Hq
    by (vm_compute; reflexivity).
  assert (store_budget w = None) as Hb by (vm_compute; reflexivity).
  split; [exact Hseen|].
  assert (forall s, In s (seen_ids_of (users w) Sample.alice) ->
                    Oid.of_str s <> None) as Hp.
  { intros s Hs. rewrite Hseen in Hs. destruct Hs as [<- | []].
    vm_compute. discriminate. }
  destruct (completion_iff_exhausted Sample.alice "JEE" w Hb Hp) as [_ H].
  apply H. intros q Hin He. rewrite Hq in Hin.
  destruct Hin as [<- | [<- | [<- | []]]]; try discriminate He.
  exists (Oid.to_str Sample.id2). rewrite Hseen.
  split; [left; reflexivity | vm_compute; reflexivity].
Defined.

Lemma expected_delivery_acknowledged_witness :
  fst (webhook PyStr.upper None
         (delivery [text_event Sample.alice "neet";
                    postback_event Sample.alice
                      "ANSWER_507f1f77bcf86cd799439013_a";
                    postback_event Sample.alice "NEXT_NEET";
                    text_event Sample.alice "thanks"])
         Sample.w0)
  = Ok (BodyStatus "OK" 200).
Proof.
  apply (expected_delivery_acknowledged PyStr.upper).
  - split; [reflexivity|]. split; [repeat constructor | intros v s []].
  - repeat (apply Forall_cons; [|]); [| | | |apply Forall_nil].
    + apply expected_text. discriminate.
    + apply expected_postback. right.
      exists "507f1f77bcf86cd799439013", "a", Sample.id3.
      repeat split; reflexivity.
    + apply expected_postback. left. reflexivity.
    + apply expected_text. discriminate.
Defined.
